(** * dm-po2zone: a power-of-two zone geometry over a zoned block device

    Shallow embedding of the device-mapper target [po2zone] (the
    [dm_po2z_*] functions) and proofs about its sector arithmetic, its
    constructor, its request routing, its completion hook and its zone
    report translation.

    Machine integers are values of [Z] with the wrap-around of the C type
    written out: [sector_t] is an unsigned 64-bit integer, [unsigned int]
    an unsigned 32-bit integer and [int] a signed 32-bit integer. *)

From Stdlib Require Import ZArith Lia List Bool String.
Import ListNotations.
Local Open Scope Z_scope.

(** ** Machine integers *)

Module Mach.

Definition u64 (x : Z) : Z := x mod 2 ^ 64.
Definition u32 (x : Z) : Z := x mod 2 ^ 32.

(** Conversion to [int]: the low 32 bits read in two's complement (the
    kernel is built with wrapping signed arithmetic). *)
Definition s32 (x : Z) : Z :=
  let y := x mod 2 ^ 32 in
  if y <? 2 ^ 31 then y else y - 2 ^ 32.

(** [x << n] evaluated in type [int].  A count outside 0..31 is outside the
    C standard; the shift instruction of the machine takes the count
    modulo 32, and so does this definition. *)
Definition int_shl (x n : Z) : Z := s32 (Z.shiftl x (n mod 32)).

Definition SECTOR_SHIFT : Z := 9.

End Mach.
Import Mach.

(** ** Bit helpers of the kernel *)

(** Modelled from the spec: [fls64], [get_count_order_long], [ilog2] and
    [is_power_of_2] are declared in the kernel's bit-operation headers,
    which are not among the sources.  The specification asks for the
    smallest power of two that is at least the physical zone size and for
    its base-2 logarithm; the headers document [fls64 x] as the 1-based
    position of the most significant set bit (0 for 0),
    [get_count_order_long l] as the order of [l] rounded up (-1 for 0) and
    [ilog2 n] as [fls64 n - 1]. *)
Definition fls64 (x : Z) : Z :=
  if x =? 0 then 0 else Z.log2 x + 1.

Definition get_count_order_long (l : Z) : Z :=
  if l =? 0 then -1 else fls64 (u64 (l - 1)).

Definition ilog2 (n : Z) : Z := fls64 n - 1.

Definition is_power_of_2 (n : Z) : bool :=
  negb (n =? 0) && (Z.land n (n - 1) =? 0).

(** ** Zone descriptors and the backing device *)

(** Modelled from the spec: [struct blk_zone] is declared in the block
    layer's zoned-device header, which is not among the sources.  The
    specification names start sector, write pointer, length and state; the
    header adds the zone type, two flags and the usable capacity. *)
Record blk_zone : Type := mk_blk_zone {
  start : Z;      (* sector_t *)
  len : Z;        (* sector_t *)
  wp : Z;         (* sector_t *)
  type : Z;
  cond : Z;
  non_seq : Z;
  reset : Z;
  capacity : Z
}.

(** The backing block device as the target reads it: zone size in sectors
    ([bdev_zone_sectors]), capacity in sectors ([get_capacity]) and the
    zone table its zone report walks. *)
Record block_device : Type := mk_block_device {
  bdev_zone_sectors : Z;
  get_capacity : Z;
  bdev_zones : list blk_zone
}.

(** ** The target's private data *)

Record dm_po2z_target : Type := mk_dm_po2z_target {
  dev : block_device;
  zone_size : Z;            (* sector_t: zone size of the underlying device *)
  zone_size_po2 : Z;        (* sector_t: zone_size rounded up to a power of two *)
  zone_size_po2_shift : Z;  (* unsigned int *)
  zone_size_diff : Z;       (* sector_t: zone_size_po2 - zone_size *)
  nr_zones : Z              (* unsigned int *)
}.

(** ** Coordinate transforms *)

(** [div64_u64] traps on a zero divisor; every statement below is made for
    a positive [zone_size]. *)
Definition div64_u64 (dividend divisor : Z) : Z := dividend / divisor.

Definition npo2_zone_no (dmh : dm_po2z_target) (sect : Z) : Z :=
  u32 (div64_u64 sect (zone_size dmh)).

Definition po2_zone_no (dmh : dm_po2z_target) (sect : Z) : Z :=
  u32 (Z.shiftr sect (zone_size_po2_shift dmh)).

Definition target_to_device_sect (dmh : dm_po2z_target) (sect : Z) : Z :=
  u64 (sect - u64 (po2_zone_no dmh sect * zone_size_diff dmh)).

Definition device_to_target_sect (dmh : dm_po2z_target) (sect : Z) : Z :=
  u64 (sect + u64 (npo2_zone_no dmh sect * zone_size_diff dmh)).

(** ** Well-formed geometry

    What the constructor establishes and every other operation relies on:
    a positive zone size, its power-of-two cover with the matching shift,
    their difference, a zone count that fits [unsigned int] and a logical
    device length that fits [sector_t]. *)
Record geometry_ok (dmh : dm_po2z_target) : Prop := mk_geometry_ok {
  gk_size_pos : 0 < zone_size dmh;
  gk_shift : 0 <= zone_size_po2_shift dmh < 64;
  gk_po2 : zone_size_po2 dmh = 2 ^ zone_size_po2_shift dmh;
  gk_cover : zone_size dmh <= zone_size_po2 dmh;
  gk_diff : zone_size_diff dmh = zone_size_po2 dmh - zone_size dmh;
  gk_zones : 0 <= nr_zones dmh < 2 ^ 32;
  gk_len : zone_size_po2 dmh * nr_zones dmh < 2 ^ 64
}.

(** Length of the logical device, [ti->len] after construction. *)
Definition target_len (dmh : dm_po2z_target) : Z :=
  zone_size_po2 dmh * nr_zones dmh.

(** A sector of the logical device. *)
Definition on_target (dmh : dm_po2z_target) (sect : Z) : Prop :=
  0 <= sect < target_len dmh.

(** Logical sector where the emulated area of the zone holding [sect]
    starts: [zone_idx * zone_size_po2 + zone_size]. *)
Definition boundary (dmh : dm_po2z_target) (sect : Z) : Z :=
  po2_zone_no dmh sect * zone_size_po2 dmh + zone_size dmh.


(** ** Construction *)

(** The fields of [struct dm_target] the target reads and writes. *)
Record dm_target : Type := mk_dm_target {
  ti_begin : Z;                          (* sector_t begin *)
  ti_len : Z;                            (* sector_t len *)
  ti_max_io_len : Z;                     (* uint32_t max_io_len *)
  ti_private : option dm_po2z_target;    (* void *private *)
  ti_error : option string               (* char *error *)
}.

Definition EINVAL : Z := 22.
Definition ENOMEM : Z := 12.

(** Outcome of [dm_get_device]: the opened device, or a non-zero code. *)
Inductive dm_get_device_result : Type :=
  | DevOpened (d : block_device)
  | DevFailed (ret : Z).

(** [dm_po2z_ctr].  [kmalloc_ok] tells whether the allocation of the
    private data succeeds and [lookup] is what [dm_get_device] answers for
    [argv[0]].  The result is the return code and the target afterwards.
    The warning for a zone size that is a power of two already changes no
    state and has no counterpart here; [nr_zones] is not yet set when
    [npo2_zone_no] reads the private data, which does not look at it. *)
Definition dm_po2z_ctr (ti : dm_target) (argc : Z) (kmalloc_ok : bool)
    (lookup : dm_get_device_result) : Z * dm_target :=
  if negb (argc =? 1) then (- EINVAL, ti)
  else if negb kmalloc_ok then (- ENOMEM, ti)
  else
    match lookup with
    | DevFailed ret =>
        (ret, mk_dm_target (ti_begin ti) (ti_len ti) (ti_max_io_len ti)
                (ti_private ti) (Some "Device lookup failed"%string))
    | DevOpened d =>
        let zone_size := bdev_zone_sectors d in
        let dev_capacity := get_capacity d in
        if negb (ti_len ti =? dev_capacity) || negb (ti_begin ti =? 0)
        then (- EINVAL, ti)
        else
          let po2 := u64 (int_shl 1 (get_count_order_long zone_size)) in
          let shift := u32 (ilog2 po2) in
          let diff := u64 (po2 - zone_size) in
          let dmh0 := mk_dm_po2z_target d zone_size po2 shift diff 0 in
          let nr := npo2_zone_no dmh0 (ti_len ti) in
          let dmh := mk_dm_po2z_target d zone_size po2 shift diff nr in
          (0, mk_dm_target (ti_begin ti) (u64 (po2 * nr)) (u32 po2)
                (Some dmh) (ti_error ti))
    end.

(** ** Requests *)

(** Modelled from the spec: the operation codes of [enum req_opf] and
    [op_is_zone_mgmt] are declared in the block layer's type header, which
    is not among the sources.  The specification distinguishes reads,
    writes, zone appends, zone-management commands and flush-style
    requests; the header counts zone reset, open, close and finish as zone
    management and treats the reset of all zones apart. *)
Inductive req_op : Type :=
  | REQ_OP_READ
  | REQ_OP_WRITE
  | REQ_OP_FLUSH
  | REQ_OP_DISCARD
  | REQ_OP_SECURE_ERASE
  | REQ_OP_WRITE_ZEROES
  | REQ_OP_ZONE_OPEN
  | REQ_OP_ZONE_CLOSE
  | REQ_OP_ZONE_FINISH
  | REQ_OP_ZONE_APPEND
  | REQ_OP_ZONE_RESET
  | REQ_OP_ZONE_RESET_ALL.

Definition op_is_zone_mgmt (op : req_op) : bool :=
  match op with
  | REQ_OP_ZONE_RESET | REQ_OP_ZONE_OPEN
  | REQ_OP_ZONE_CLOSE | REQ_OP_ZONE_FINISH => true
  | _ => false
  end.

Definition req_op_eqb (a b : req_op) : bool :=
  match a, b with
  | REQ_OP_READ, REQ_OP_READ | REQ_OP_WRITE, REQ_OP_WRITE
  | REQ_OP_FLUSH, REQ_OP_FLUSH | REQ_OP_DISCARD, REQ_OP_DISCARD
  | REQ_OP_SECURE_ERASE, REQ_OP_SECURE_ERASE
  | REQ_OP_WRITE_ZEROES, REQ_OP_WRITE_ZEROES
  | REQ_OP_ZONE_OPEN, REQ_OP_ZONE_OPEN | REQ_OP_ZONE_CLOSE, REQ_OP_ZONE_CLOSE
  | REQ_OP_ZONE_FINISH, REQ_OP_ZONE_FINISH
  | REQ_OP_ZONE_APPEND, REQ_OP_ZONE_APPEND
  | REQ_OP_ZONE_RESET, REQ_OP_ZONE_RESET
  | REQ_OP_ZONE_RESET_ALL, REQ_OP_ZONE_RESET_ALL => true
  | _, _ => false
  end.

Definition BLK_STS_OK : Z := 0.

(** A bio as the target sees it: the device it is bound to, the operation
    ([bio_op]), the completion status, the iterator's sector and residual
    byte count, the payload under the iterator and whether [bio_endio] has
    completed it. *)
Record bio : Type := mk_bio {
  bi_bdev : option block_device;
  bi_op : req_op;
  bi_status : Z;         (* blk_status_t *)
  bi_sector : Z;         (* sector_t bi_iter.bi_sector *)
  bi_size : Z;           (* unsigned int bi_iter.bi_size, in bytes *)
  bi_data : list Byte.byte;
  bi_ended : bool
}.

Definition set_bi_sector (b : bio) (s : Z) : bio :=
  mk_bio (bi_bdev b) (bi_op b) (bi_status b) s (bi_size b) (bi_data b)
         (bi_ended b).

Definition bio_sectors (b : bio) : Z := Z.shiftr (bi_size b) SECTOR_SHIFT.

Definition bio_set_dev (b : bio) (d : block_device) : bio :=
  mk_bio (Some d) (bi_op b) (bi_status b) (bi_sector b) (bi_size b)
         (bi_data b) (bi_ended b).

(** Modelled from the spec: [dm_accept_partial_bio], [zero_fill_bio] and
    [bio_endio] belong to the device-mapper and block frameworks, which are
    not among the sources.  Accepting a bio partially keeps its first
    [n_sectors] sectors and leaves what follows to be resubmitted by the
    framework; zero-filling writes zero over the bytes under the iterator;
    ending a bio signals its completion.  The framework asserts that no
    more sectors are accepted than the bio has; the target accepts the
    sectors up to a boundary that lies before the end of the bio. *)
Definition dm_accept_partial_bio (b : bio) (n_sectors : Z) : bio :=
  mk_bio (bi_bdev b) (bi_op b) (bi_status b) (bi_sector b)
         (u32 (Z.shiftl (u32 n_sectors) SECTOR_SHIFT)) (bi_data b)
         (bi_ended b).

Definition zero_fill_bio (b : bio) : bio :=
  let n := Z.to_nat (bi_size b) in
  mk_bio (bi_bdev b) (bi_op b) (bi_status b) (bi_sector b) (bi_size b)
         (map (fun _ => Byte.x00) (firstn n (bi_data b)) ++ skipn n (bi_data b))
         (bi_ended b).

Definition bio_endio (b : bio) : bio :=
  mk_bio (bi_bdev b) (bi_op b) (bi_status b) (bi_sector b) (bi_size b)
         (bi_data b) true.

(** Modelled from the spec: the resubmission of a partially accepted
    request is done by the device-mapper framework, which is not among the
    sources.  The caller re-submits the trailing remainder: the same
    request from the split position on, for the sectors not accepted. *)
Definition remainder (orig accepted : bio) : bio :=
  mk_bio (bi_bdev orig) (bi_op orig) (bi_status orig)
         (bi_sector orig + bio_sectors accepted)
         (bi_size orig - bi_size accepted)
         (skipn (Z.to_nat (bi_size accepted)) (bi_data orig))
         (bi_ended orig).

(** ** Request routing *)

Inductive dm_mapio : Type :=
  | DM_MAPIO_SUBMITTED
  | DM_MAPIO_REMAPPED
  | DM_MAPIO_REQUEUE
  | DM_MAPIO_DELAY_REQUEUE
  | DM_MAPIO_KILL.

Definition bio_across_emulated_zone_area (dmh : dm_po2z_target) (b : bio)
    : bool :=
  let zone_idx := po2_zone_no dmh (bi_sector b) in
  let nr_sectors := Z.shiftr (bi_size b) SECTOR_SHIFT in
  u64 (u64 (zone_idx * zone_size_po2 dmh) + zone_size dmh)
    <? u64 (bi_sector b + nr_sectors).

Definition dm_po2z_map_read_emulated_area (dmh : dm_po2z_target) (b : bio)
    : dm_mapio * bio :=
  let start_sect := bi_sector b in
  let zone_idx := po2_zone_no dmh start_sect in
  let relative_sect_in_zone :=
    u64 (start_sect - u64 (zone_idx * zone_size_po2 dmh)) in
  if relative_sect_in_zone <? zone_size dmh then
    let split_io_pos := u64 (u64 (zone_idx * zone_size_po2 dmh) + zone_size dmh) in
    let b1 := dm_accept_partial_bio b (u64 (split_io_pos - start_sect)) in
    (DM_MAPIO_REMAPPED, set_bi_sector b1 (target_to_device_sect dmh start_sect))
  else
    (DM_MAPIO_SUBMITTED, bio_endio (zero_fill_bio b)).

Definition dm_po2z_map (dmh : dm_po2z_target) (b0 : bio) : dm_mapio * bio :=
  let b := bio_set_dev b0 (dev dmh) in
  if negb (bio_sectors b =? 0) || op_is_zone_mgmt (bi_op b) then
    if negb (bio_across_emulated_zone_area dmh b) then
      (DM_MAPIO_REMAPPED,
       set_bi_sector b (target_to_device_sect dmh (bi_sector b)))
    else if req_op_eqb (bi_op b) REQ_OP_READ then
      dm_po2z_map_read_emulated_area dmh b
    else (DM_MAPIO_KILL, b)
  else (DM_MAPIO_REMAPPED, b).

(** ** Completion *)

Inductive dm_endio : Type :=
  | DM_ENDIO_DONE
  | DM_ENDIO_INCOMPLETE
  | DM_ENDIO_REQUEUE
  | DM_ENDIO_DELAY_REQUEUE.

(** [dm_po2z_end_io]: the return code, the bio and the status behind
    [error] afterwards. *)
Definition dm_po2z_end_io (dmh : dm_po2z_target) (b : bio) (error : Z)
    : dm_endio * bio * Z :=
  let b' :=
    if (bi_status b =? BLK_STS_OK) && req_op_eqb (bi_op b) REQ_OP_ZONE_APPEND
    then set_bi_sector b (device_to_target_sect dmh (bi_sector b))
    else b in
  (DM_ENDIO_DONE, b', error).

Definition dm_po2z_io_hints (dmh : dm_po2z_target) (chunk_sectors : Z) : Z :=
  u32 (zone_size_po2 dmh).

Definition dm_po2z_iterate_devices {A : Type} (dmh : dm_po2z_target)
    (fn : block_device -> Z -> Z -> A -> Z) (data : A) : Z :=
  let len := u64 (nr_zones dmh * zone_size dmh) in
  fn (dev dmh) 0 len data.

(** ** Zone reports *)

(** [struct dm_report_zones_args] as the target uses it.  [tgt] stands for
    [args->tgt->private]; the caller's callback [orig_cb] reads the
    descriptor and threads the caller's data of type [D]. *)
Record dm_report_zones_args (D : Type) : Type := mk_dm_report_zones_args {
  tgt : dm_po2z_target;
  next_sector : Z;                         (* sector_t *)
  orig_data : D;
  orig_cb : blk_zone -> Z -> D -> Z * D;
  zone_idx : Z                             (* unsigned int *)
}.

Arguments mk_dm_report_zones_args {D}.
Arguments tgt {D}.
Arguments next_sector {D}.
Arguments orig_data {D}.
Arguments orig_cb {D}.
Arguments zone_idx {D}.

(** [dm_po2z_report_zones_cb]: the return code of the caller's callback,
    the descriptor as rewritten in place and the arguments afterwards. *)
Definition dm_po2z_report_zones_cb {D : Type} (zone : blk_zone) (idx : Z)
    (args : dm_report_zones_args D) : Z * blk_zone * dm_report_zones_args D :=
  let dmh := tgt args in
  let z1 := mk_blk_zone (device_to_target_sect dmh (start zone)) (len zone)
              (wp zone) (type zone) (cond zone) (non_seq zone) (reset zone)
              (capacity zone) in
  let z2 := mk_blk_zone (start z1) (len z1)
              (device_to_target_sect dmh (wp z1)) (type z1) (cond z1)
              (non_seq z1) (reset z1) (capacity z1) in
  let z3 := mk_blk_zone (start z2) (zone_size_po2 dmh) (wp z2) (type z2)
              (cond z2) (non_seq z2) (reset z2) (capacity z2) in
  let next := u64 (start z3 + len z3) in
  let '(ret, data') := orig_cb args z3 (zone_idx args) (orig_data args) in
  (ret, z3,
   mk_dm_report_zones_args dmh next data' (orig_cb args)
     (u32 (zone_idx args + 1))).

(** Modelled from the spec: [blkdev_report_zones] belongs to the block
    layer, which is not among the sources.  A zone-enumeration query names
    a start sector and a zone count; the device answers with the
    descriptors of its zones in ascending order, starting at the zone that
    holds the start sector, at most the requested count of them and none
    for a start at or past the end of the device.  Each descriptor goes
    through the callback with its position in the answer; a non-zero
    return of the callback ends the enumeration with that code, otherwise
    the result is the number of descriptors reported. *)
Fixpoint report_loop {A : Type} (cb : blk_zone -> Z -> A -> Z * blk_zone * A)
    (zones : list blk_zone) (idx : Z) (data : A) : Z * A :=
  match zones with
  | [] => (idx, data)
  | z :: rest =>
      let '(ret, _, data') := cb z idx data in
      if ret =? 0 then report_loop cb rest (idx + 1) data' else (ret, data')
  end.

Definition zones_from (bdev : block_device) (sector nr_zones : Z)
    : list blk_zone :=
  if (nr_zones =? 0) || (get_capacity bdev <=? sector) then []
  else firstn (Z.to_nat nr_zones)
         (skipn (Z.to_nat (sector / bdev_zone_sectors bdev)) (bdev_zones bdev)).

Definition blkdev_report_zones {A : Type} (bdev : block_device)
    (sector nr_zones : Z) (cb : blk_zone -> Z -> A -> Z * blk_zone * A)
    (data : A) : Z * A :=
  report_loop cb (zones_from bdev sector nr_zones) 0 data.

(** The sector [sect] at which [dm_po2z_report_zones] starts the query of
    the backing device. *)
Definition report_zones_sect {D : Type} (dmh : dm_po2z_target)
    (args : dm_report_zones_args D) : Z :=
  u64 (po2_zone_no dmh (next_sector args) * zone_size dmh).

Definition dm_po2z_report_zones {D : Type} (dmh : dm_po2z_target)
    (args : dm_report_zones_args D) (nr_zones : Z)
    : Z * dm_report_zones_args D :=
  let sect := report_zones_sect dmh args in
  blkdev_report_zones (dev dmh) sect nr_zones dm_po2z_report_zones_cb args.

(** ** Example device

    Twelve-sector zones, ten of them: the logical zones have sixteen
    sectors, of which the last four are emulated. *)

Definition seq_zone (zs j : Z) : blk_zone :=
  mk_blk_zone (j * zs) zs (j * zs) 2 1 0 0 zs.

Definition regular_zones (zs : Z) (n : nat) : list blk_zone :=
  map (fun j => seq_zone zs (Z.of_nat j)) (seq 0 n).

Definition dev12 : block_device :=
  mk_block_device 12 120 (regular_zones 12 10).

Definition geo12 : dm_po2z_target := mk_dm_po2z_target dev12 12 16 4 4 10.

Definition ti12 : dm_target := mk_dm_target 0 120 0 None None.

Definition mk_req (op : req_op) (sector nr_sectors : Z) : bio :=
  mk_bio None op BLK_STS_OK sector (Z.shiftl nr_sectors SECTOR_SHIFT)
         (repeat Byte.xff (Z.to_nat (Z.shiftl nr_sectors SECTOR_SHIFT))) false.

(** A caller's callback that collects the descriptors it is given. *)
Definition collect_cb (z : blk_zone) (idx : Z) (acc : list blk_zone)
    : Z * list blk_zone := (0, acc ++ [z]).

Definition args_at (dmh : dm_po2z_target) (cursor : Z)
    : dm_report_zones_args (list blk_zone) :=
  mk_dm_report_zones_args dmh cursor [] collect_cb 0.

(** The target the constructor builds from a device, when it accepts it. *)
Definition constructed (d : block_device) : dm_po2z_target :=
  let zs := bdev_zone_sectors d in
  mk_dm_po2z_target d zs (2 ^ Z.log2_up zs) (Z.log2_up zs)
    (2 ^ Z.log2_up zs - zs) (get_capacity d / zs).

(** A device the constructor handles within the range of its integer
    types: zones of at most 2^30 sectors, fewer than 2^32 of them. *)
Definition device_in_range (d : block_device) : Prop :=
  0 < bdev_zone_sectors d <= 2 ^ 30
  /\ 0 <= get_capacity d < 2 ^ 64
  /\ get_capacity d / bdev_zone_sectors d < 2 ^ 32.

(** A request that lies on the logical device: its start is a sector of
    the device, it does not run past the end of the device and its byte
    count fits [unsigned int]. *)
Definition request_on_target (dmh : dm_po2z_target) (b : bio) : Prop :=
  on_target dmh (bi_sector b)
  /\ 0 <= bi_size b < 2 ^ 32
  /\ bi_sector b + bio_sectors b <= target_len dmh.

(** The payload under the iterator has [bi_size] bytes. *)
Definition payload_sized (b : bio) : Prop :=
  List.length (bi_data b) = Z.to_nat (bi_size b).

(** The descriptor of the logical zone that stands for a physical zone:
    start and write pointer in logical sectors, the power-of-two length,
    everything else as reported by the device. *)
Definition translated (dmh : dm_po2z_target) (zone : blk_zone) : blk_zone :=
  mk_blk_zone (device_to_target_sect dmh (start zone)) (zone_size_po2 dmh)
    (device_to_target_sect dmh (wp zone)) (type zone) (cond zone)
    (non_seq zone) (reset zone) (capacity zone).

(** The backing device agrees with the private data: the zone size is the
    one read at construction and the capacity holds the zones counted. *)
Definition device_matches (dmh : dm_po2z_target) : Prop :=
  bdev_zone_sectors (dev dmh) = zone_size dmh
  /\ nr_zones dmh * zone_size dmh <= get_capacity (dev dmh).

(** The zone table of the backing device is laid out without gaps: one
    descriptor per zone, zone [j] starting at sector [j * zone_size]. *)
Definition zone_table_regular (dmh : dm_po2z_target) : Prop :=
  List.length (bdev_zones (dev dmh)) = Z.to_nat (nr_zones dmh)
  /\ forall (j : nat) (zj : blk_zone),
       nth_error (bdev_zones (dev dmh)) j = Some zj ->
       start zj = Z.of_nat j * zone_size dmh.

(** ** Latency accumulation ([calclock.c])

    [time64_t] and [long] are signed 64-bit integers, [unsigned long long]
    is an unsigned 64-bit integer. *)

Definition s64 (x : Z) : Z :=
  let y := x mod 2 ^ 64 in
  if y <? 2 ^ 63 then y else y - 2 ^ 64.

(** Modelled from the spec: [struct timespec64] is declared in the kernel's
    time header, which is not among the sources; it holds seconds and
    nanoseconds. *)
Record timespec64 : Type := mk_timespec64 {
  tv_sec : Z;     (* time64_t *)
  tv_nsec : Z     (* long *)
}.

Definition BILLION : Z := 1000000000.

(** [calclock]: [myclock0] and [myclock1] are [myclock[0]] and
    [myclock[1]]; [total_time] and [total_count] are the values behind the
    two pointers.  The result is the returned delay and the two totals
    afterwards. *)
Definition calclock (myclock0 myclock1 : timespec64)
    (total_time total_count : Z) : Z * Z * Z :=
  let timedelay :=
    if tv_nsec myclock0 <=? tv_nsec myclock1 then
      let temp := u64 (s64 (tv_sec myclock1 - tv_sec myclock0)) in
      let temp_n := u64 (s64 (tv_nsec myclock1 - tv_nsec myclock0)) in
      u64 (u64 (u64 BILLION * temp) + temp_n)
    else
      let temp := u64 (s64 (s64 (tv_sec myclock1 - tv_sec myclock0) - 1)) in
      let temp_n :=
        u64 (s64 (s64 (BILLION + tv_nsec myclock1) - tv_nsec myclock0)) in
      u64 (u64 (u64 BILLION * temp) + temp_n) in
  (timedelay, u64 (total_time + timedelay), u64 (total_count + 1)).

(** A clock reading in nanoseconds. *)
Definition nanoseconds (t : timespec64) : Z := BILLION * tv_sec t + tv_nsec t.

(** A device whose zone size is a power of two already: sixteen-sector
    zones, ten of them.  The constructor accepts it with a warning and
    the logical zones have no emulated part. *)
Definition dev16 : block_device :=
  mk_block_device 16 160 (regular_zones 16 10).

Definition geo16 : dm_po2z_target := mk_dm_po2z_target dev16 16 16 4 0 10.

Definition ti16 : dm_target := mk_dm_target 0 160 0 None None.

(** * Proofs *)

(** ** Machine arithmetic *)

Lemma u64_small (x : Z) : 0 <= x < 2 ^ 64 -> u64 x = x.
Proof. intros H. unfold u64. apply Z.mod_small. exact H. Qed.

Lemma u32_small (x : Z) : 0 <= x < 2 ^ 32 -> u32 x = x.
Proof. intros H. unfold u32. apply Z.mod_small. exact H. Qed.

Lemma u64_range (x : Z) : 0 <= u64 x < 2 ^ 64.
Proof. unfold u64. apply Z.mod_pos_bound. lia. Qed.

Lemma u32_range (x : Z) : 0 <= u32 x < 2 ^ 32.
Proof. unfold u32. apply Z.mod_pos_bound. lia. Qed.

Lemma pow2_pos (n : Z) : 0 <= n -> 0 < 2 ^ n.
Proof. intros H. apply Z.pow_pos_nonneg; lia. Qed.

(** ** Zone arithmetic on a well-formed geometry *)

Section Geometry.

Variable dmh : dm_po2z_target.
Hypothesis Hok : geometry_ok dmh.

Lemma po2_pos : 0 < zone_size_po2 dmh.
Proof.
  destruct Hok as [Hs _ _ Hc _ _ _]. lia.
Qed.

Lemma diff_range : 0 <= zone_size_diff dmh < zone_size_po2 dmh.
Proof.
  destruct Hok as [Hs _ _ Hc Hd _ _]. lia.
Qed.

Lemma target_len_range : 0 <= target_len dmh < 2 ^ 64.
Proof.
  unfold target_len. destruct Hok as [Hs _ _ Hc _ Hz Hl].
  split; [nia | exact Hl].
Qed.

(** On the logical device the zone number is the plain quotient and names
    one of the device's zones. *)
Lemma po2_zone_no_on_target (s : Z) :
  on_target dmh s ->
  po2_zone_no dmh s = s / zone_size_po2 dmh
  /\ 0 <= s / zone_size_po2 dmh < nr_zones dmh.
Proof.
  intros [Hs0 Hs1]. unfold target_len in Hs1.
  pose proof po2_pos as Hp.
  destruct Hok as [_ Hsh Hpo _ _ Hz _].
  assert (Hq : 0 <= s / zone_size_po2 dmh < nr_zones dmh).
  { split.
    - apply Z.div_pos; lia.
    - apply Z.div_lt_upper_bound; lia. }
  split; [| exact Hq].
  unfold po2_zone_no. rewrite Z.shiftr_div_pow2 by lia.
  rewrite <- Hpo. apply u32_small. lia.
Qed.

(** Decomposition of a sector of the device into zone number and offset. *)
Lemma sector_split (s : Z) :
  on_target dmh s ->
  exists z off,
    s = z * zone_size_po2 dmh + off
    /\ 0 <= off < zone_size_po2 dmh
    /\ 0 <= z < nr_zones dmh
    /\ po2_zone_no dmh s = z
    /\ s mod zone_size_po2 dmh = off.
Proof.
  intros Hs. pose proof po2_pos as Hp.
  destruct (po2_zone_no_on_target s Hs) as [Hz Hr].
  exists (s / zone_size_po2 dmh), (s mod zone_size_po2 dmh).
  pose proof (Z.div_mod s (zone_size_po2 dmh)) as Hdm.
  pose proof (Z.mod_pos_bound s (zone_size_po2 dmh) Hp) as Hm.
  repeat split; try lia; auto.
Qed.

Lemma boundary_on_target (s : Z) :
  on_target dmh s ->
  boundary dmh s = s / zone_size_po2 dmh * zone_size_po2 dmh + zone_size dmh
  /\ s - s mod zone_size_po2 dmh < boundary dmh s <= target_len dmh.
Proof.
  intros Hs. unfold boundary.
  destruct (sector_split s Hs) as (z & off & He & Ho & Hz & Hzn & Hm).
  destruct (po2_zone_no_on_target s Hs) as [Hq _].
  rewrite Hzn in *. rewrite <- Hq.
  destruct Hok as [Hs0 _ _ Hc _ _ _]. unfold target_len.
  split; [reflexivity|]. rewrite Hm. nia.
Qed.

(** The logical-to-physical transform without wrap-around. *)
Lemma target_to_device_on_target (s : Z) :
  on_target dmh s ->
  target_to_device_sect dmh s
  = s - po2_zone_no dmh s * zone_size_diff dmh
  /\ 0 <= s - po2_zone_no dmh s * zone_size_diff dmh <= s.
Proof.
  intros Hs.
  destruct (sector_split s Hs) as (z & off & He & Ho & Hz & Hzn & Hm).
  pose proof diff_range as Hd. pose proof target_len_range as Hl.
  destruct Hs as [Hs0 Hs1].
  unfold target_to_device_sect. rewrite Hzn.
  assert (Hzd : 0 <= z * zone_size_diff dmh <= z * zone_size_po2 dmh) by nia.
  rewrite (u64_small (z * zone_size_diff dmh)) by lia.
  split; [apply u64_small|]; lia.
Qed.

(** A physically backed sector keeps its zone and its offset. *)
Lemma backed_sector_image (s : Z) :
  on_target dmh s ->
  s mod zone_size_po2 dmh < zone_size dmh ->
  target_to_device_sect dmh s
  = po2_zone_no dmh s * zone_size dmh + s mod zone_size_po2 dmh
  /\ npo2_zone_no dmh (target_to_device_sect dmh s) = po2_zone_no dmh s.
Proof.
  intros Hs Hb.
  destruct (target_to_device_on_target s Hs) as [Ht _].
  destruct (sector_split s Hs) as (z & off & He & Ho & Hz & Hzn & Hm).
  destruct Hok as [Hs0 _ _ Hc Hd Hnz _].
  rewrite Ht, Hzn, Hm in *. rewrite Hd.
  assert (Heq : s - z * (zone_size_po2 dmh - zone_size dmh)
                = z * zone_size dmh + off) by lia.
  rewrite Heq. split; [reflexivity|].
  unfold npo2_zone_no, div64_u64.
  assert (Hq : (z * zone_size dmh + off) / zone_size dmh = z).
  { rewrite Z.div_add_l by lia. rewrite Z.div_small by lia. lia. }
  rewrite Hq. apply u32_small. lia.
Qed.

Lemma backed_round_trip (s : Z) :
  on_target dmh s ->
  s mod zone_size_po2 dmh < zone_size dmh ->
  device_to_target_sect dmh (target_to_device_sect dmh s) = s.
Proof.
  intros Hs Hb.
  destruct (backed_sector_image s Hs Hb) as [Hi Hn].
  destruct (target_to_device_on_target s Hs) as [Ht Hr].
  destruct (sector_split s Hs) as (z & off & He & Ho & Hz & Hzn & Hm).
  pose proof diff_range as Hd. pose proof target_len_range as Hl.
  destruct Hs as [Hs0 Hs1].
  unfold device_to_target_sect. rewrite Hn, Ht, Hzn.
  assert (Hzd : 0 <= z * zone_size_diff dmh <= z * zone_size_po2 dmh) by nia.
  rewrite (u64_small (z * zone_size_diff dmh)) by lia.
  replace (s - z * zone_size_diff dmh + z * zone_size_diff dmh) with s by lia.
  apply u64_small. lia.
Qed.

End Geometry.

(** ** The constructor *)

Section Constructor.

Variable zs : Z.
Hypothesis Hzs : 0 < zs <= 2 ^ 30.

Lemma count_order_log2_up : get_count_order_long zs = Z.log2_up zs.
Proof.
  unfold get_count_order_long, fls64.
  destruct (Z.eqb_spec zs 0) as [E | _]; [lia |].
  rewrite u64_small by lia.
  destruct (Z.eqb_spec (zs - 1) 0) as [E | N].
  - replace zs with 1 by lia. reflexivity.
  - rewrite Z.log2_up_eqn by lia.
    replace (Z.pred zs) with (zs - 1) by lia. lia.
Qed.

Lemma count_order_range : 0 <= Z.log2_up zs <= 30.
Proof.
  split; [apply Z.log2_up_nonneg |].
  change 30 with (Z.log2_up (2 ^ 30)).
  apply Z.log2_up_le_mono. lia.
Qed.

Lemma po2_value :
  u64 (int_shl 1 (get_count_order_long zs)) = 2 ^ Z.log2_up zs.
Proof.
  rewrite count_order_log2_up.
  pose proof count_order_range as Hr.
  assert (Hp : 0 < 2 ^ Z.log2_up zs <= 2 ^ 30).
  { split; [apply pow2_pos; lia | apply Z.pow_le_mono_r; lia]. }
  unfold int_shl, s32.
  rewrite (Z.mod_small (Z.log2_up zs) 32) by lia.
  rewrite Z.shiftl_1_l.
  rewrite (Z.mod_small (2 ^ Z.log2_up zs) (2 ^ 32)) by lia.
  destruct (Z.ltb_spec (2 ^ Z.log2_up zs) (2 ^ 31)) as [_ | Hge]; [| lia].
  apply u64_small. lia.
Qed.

Lemma po2_covers : zs <= 2 ^ Z.log2_up zs.
Proof.
  destruct (Z.eq_dec zs 1) as [-> | N]; [reflexivity |].
  apply (Z.log2_up_spec zs). lia.
Qed.

Lemma po2_least (k : Z) : 0 <= k -> zs <= 2 ^ k -> 2 ^ Z.log2_up zs <= 2 ^ k.
Proof.
  intros Hk Hle. apply Z.pow_le_mono_r; [lia |].
  destruct (Z.eq_dec zs 1) as [-> | N]; [exact Hk |].
  destruct (Z.log2_up_spec zs ltac:(lia)) as [Hlo _].
  assert (Hlt : 2 ^ Z.pred (Z.log2_up zs) < 2 ^ k) by lia.
  apply Z.pow_lt_mono_r_iff in Hlt; lia.
Qed.

Lemma po2_equal_iff :
  2 ^ Z.log2_up zs = zs <-> exists k, 0 <= k /\ zs = 2 ^ k.
Proof.
  split.
  - intros E. exists (Z.log2_up zs). split; [apply Z.log2_up_nonneg | lia].
  - intros (k & Hk & E). rewrite E at 1. rewrite Z.log2_up_pow2 by lia. lia.
Qed.

Lemma ilog2_po2 : u32 (ilog2 (2 ^ Z.log2_up zs)) = Z.log2_up zs.
Proof.
  pose proof count_order_range as Hr.
  unfold ilog2, fls64.
  destruct (Z.eqb_spec (2 ^ Z.log2_up zs) 0) as [E | _].
  - pose proof (pow2_pos (Z.log2_up zs)). lia.
  - rewrite Z.log2_pow2 by lia.
    replace (Z.log2_up zs + 1 - 1) with (Z.log2_up zs) by lia.
    apply u32_small. lia.
Qed.

End Constructor.

Lemma ctr_builds (ti : dm_target) (d : block_device) :
  device_in_range d ->
  ti_len ti = get_capacity d ->
  ti_begin ti = 0 ->
  dm_po2z_ctr ti 1 true (DevOpened d)
  = (0, mk_dm_target 0 (zone_size_po2 (constructed d) * nr_zones (constructed d))
          (zone_size_po2 (constructed d)) (Some (constructed d)) (ti_error ti)).
Proof.
  intros (Hzs & Hcap & Hnr) Hlen Hbeg.
  pose proof (count_order_range _ Hzs) as Hr.
  pose proof (po2_covers _ Hzs) as Hc.
  assert (Hp : 0 < 2 ^ Z.log2_up (bdev_zone_sectors d) <= 2 ^ 30).
  { split; [apply pow2_pos; lia | apply Z.pow_le_mono_r; lia]. }
  assert (Hq : 0 <= get_capacity d / bdev_zone_sectors d)
    by (apply Z.div_pos; lia).
  unfold dm_po2z_ctr. rewrite Hlen, Hbeg.
  rewrite !Z.eqb_refl. cbn [negb orb].
  rewrite (po2_value _ Hzs), (ilog2_po2 _ Hzs).
  unfold npo2_zone_no, div64_u64, constructed. cbn [zone_size zone_size_po2 nr_zones].
  rewrite (u32_small (get_capacity d / bdev_zone_sectors d)) by lia.
  rewrite (u64_small (2 ^ Z.log2_up (bdev_zone_sectors d) - bdev_zone_sectors d)) by lia.
  rewrite (u32_small (2 ^ Z.log2_up (bdev_zone_sectors d))) by lia.
  rewrite u64_small by nia.
  reflexivity.
Qed.

Lemma constructed_geometry_ok (d : block_device) :
  device_in_range d -> geometry_ok (constructed d).
Proof.
  intros (Hzs & Hcap & Hnr).
  pose proof (count_order_range _ Hzs) as Hr.
  pose proof (po2_covers _ Hzs) as Hc.
  assert (Hp : 0 < 2 ^ Z.log2_up (bdev_zone_sectors d) <= 2 ^ 30).
  { split; [apply pow2_pos; lia | apply Z.pow_le_mono_r; lia]. }
  assert (Hq : 0 <= get_capacity d / bdev_zone_sectors d)
    by (apply Z.div_pos; lia).
  constructor; unfold constructed; cbn; try lia. nia.
Qed.

(** ** Request routing *)

Lemma req_op_eqb_spec (a b : req_op) : reflect (a = b) (req_op_eqb a b).
Proof.
  destruct a, b; cbn; constructor; congruence.
Qed.

Lemma bio_sectors_range (b : bio) :
  0 <= bi_size b < 2 ^ 32 ->
  0 <= bio_sectors b < 2 ^ 23 /\ bio_sectors b * 512 <= bi_size b.
Proof.
  intros Hs. unfold bio_sectors, SECTOR_SHIFT.
  rewrite Z.shiftr_div_pow2 by lia. change (2 ^ 9) with 512.
  pose proof (Z.div_mod (bi_size b) 512 ltac:(lia)) as Hdm.
  pose proof (Z.mod_pos_bound (bi_size b) 512 ltac:(lia)) as Hm.
  lia.
Qed.

Lemma zero_fill_payload (b : bio) :
  payload_sized b ->
  bi_data (zero_fill_bio b) = repeat Byte.x00 (Z.to_nat (bi_size b)).
Proof.
  unfold payload_sized, zero_fill_bio. intros Hl. cbn [bi_data].
  rewrite <- Hl, firstn_all, skipn_all, app_nil_r. clear Hl.
  induction (bi_data b) as [| x l IH]; cbn [map List.length repeat];
    [reflexivity | f_equal; exact IH].
Qed.

Section Routing.

Variable dmh : dm_po2z_target.
Hypothesis Hok : geometry_ok dmh.

(** On the device the comparison of [bio_across_emulated_zone_area] is the
    comparison of the unbounded integers. *)
Lemma across_on_target (b : bio) :
  request_on_target dmh b ->
  bio_across_emulated_zone_area dmh b
  = (boundary dmh (bi_sector b) <? bi_sector b + bio_sectors b).
Proof.
  intros (Hs & Hsz & He).
  destruct (sector_split dmh Hok _ Hs) as (z & off & Heq & Ho & Hz & Hzn & Hm).
  destruct (boundary_on_target dmh Hok _ Hs) as [_ Hb].
  pose proof (target_len_range dmh Hok) as Hl.
  pose proof (bio_sectors_range b Hsz) as Hn.
  pose proof (gk_size_pos dmh Hok) as Hp.
  unfold bio_across_emulated_zone_area.
  fold (bio_sectors b). unfold boundary in *. rewrite Hzn in *.
  destruct Hs as [Hs0 Hs1].
  rewrite (u64_small (z * zone_size_po2 dmh)) by nia.
  rewrite (u64_small (z * zone_size_po2 dmh + zone_size dmh)) by nia.
  rewrite (u64_small (bi_sector b + bio_sectors b)) by lia.
  reflexivity.
Qed.

Lemma bio_set_dev_on_target (b : bio) :
  request_on_target dmh b -> request_on_target dmh (bio_set_dev b (dev dmh)).
Proof. intros H. exact H. Qed.

(** Step 3: a request that ends at or before the boundary is remapped. *)
Lemma map_backed (b : bio) :
  on_target dmh (bi_sector b) ->
  0 <= bi_size b < 2 ^ 32 ->
  bio_sectors b <> 0 \/ op_is_zone_mgmt (bi_op b) = true ->
  bi_sector b + bio_sectors b <= boundary dmh (bi_sector b) ->
  dm_po2z_map dmh b
  = (DM_MAPIO_REMAPPED,
     set_bi_sector (bio_set_dev b (dev dmh))
       (target_to_device_sect dmh (bi_sector b))).
Proof.
  intros Hs Hsz Hg Hle.
  destruct (boundary_on_target dmh Hok _ Hs) as [_ Hb].
  assert (Hr : request_on_target dmh b) by (repeat split; try apply Hs; lia).
  unfold dm_po2z_map.
  replace (bio_sectors (bio_set_dev b (dev dmh))) with (bio_sectors b)
    by reflexivity.
  cbn [bi_op bi_sector bio_set_dev].
  assert (Hguard : (negb (bio_sectors b =? 0) || op_is_zone_mgmt (bi_op b)) = true).
  { destruct Hg as [Hn | Hm].
    - apply Z.eqb_neq in Hn. rewrite Hn. reflexivity.
    - rewrite Hm. apply orb_true_r. }
  rewrite Hguard.
  rewrite (across_on_target _ (bio_set_dev_on_target b Hr)).
  cbn [bi_sector bio_set_dev].
  replace (bio_sectors (bio_set_dev b (dev dmh))) with (bio_sectors b)
    by reflexivity.
  destruct (Z.ltb_spec (boundary dmh (bi_sector b)) (bi_sector b + bio_sectors b));
    [lia | reflexivity].
Qed.

(** Step 4, operations other than reads: the request is killed. *)
Lemma map_kill (b : bio) :
  request_on_target dmh b ->
  bio_sectors b <> 0 \/ op_is_zone_mgmt (bi_op b) = true ->
  bi_op b <> REQ_OP_READ ->
  boundary dmh (bi_sector b) < bi_sector b + bio_sectors b ->
  dm_po2z_map dmh b = (DM_MAPIO_KILL, bio_set_dev b (dev dmh)).
Proof.
  intros Hr Hg Hop Hgt.
  unfold dm_po2z_map.
  replace (bio_sectors (bio_set_dev b (dev dmh))) with (bio_sectors b)
    by reflexivity.
  cbn [bi_op bi_sector bio_set_dev].
  assert (Hguard : (negb (bio_sectors b =? 0) || op_is_zone_mgmt (bi_op b)) = true).
  { destruct Hg as [Hn | Hm].
    - apply Z.eqb_neq in Hn. rewrite Hn. reflexivity.
    - rewrite Hm. apply orb_true_r. }
  rewrite Hguard.
  rewrite (across_on_target _ (bio_set_dev_on_target b Hr)).
  cbn [bi_sector bio_set_dev].
  replace (bio_sectors (bio_set_dev b (dev dmh))) with (bio_sectors b)
    by reflexivity.
  destruct (Z.ltb_spec (boundary dmh (bi_sector b)) (bi_sector b + bio_sectors b));
    [| lia].
  cbn [negb].
  destruct (req_op_eqb_spec (bi_op b) REQ_OP_READ); [contradiction | reflexivity].
Qed.

(** Requests without sectors that are no zone-management commands bypass
    the classification. *)
Lemma map_empty (b : bio) :
  bio_sectors b = 0 ->
  op_is_zone_mgmt (bi_op b) = false ->
  dm_po2z_map dmh b = (DM_MAPIO_REMAPPED, bio_set_dev b (dev dmh)).
Proof.
  intros Hn Hm. unfold dm_po2z_map.
  replace (bio_sectors (bio_set_dev b (dev dmh))) with (bio_sectors b)
    by reflexivity.
  cbn [bi_op bio_set_dev]. rewrite Hn, Hm. reflexivity.
Qed.

(** Step 4, a read that starts in the backed part of its zone and runs
    past the boundary: the sectors up to the boundary are accepted and
    remapped. *)
Lemma map_read_split (b : bio) :
  request_on_target dmh b ->
  bi_op b = REQ_OP_READ ->
  bi_sector b < boundary dmh (bi_sector b) ->
  boundary dmh (bi_sector b) < bi_sector b + bio_sectors b ->
  dm_po2z_map dmh b
  = (DM_MAPIO_REMAPPED,
     set_bi_sector
       (dm_accept_partial_bio (bio_set_dev b (dev dmh))
          (boundary dmh (bi_sector b) - bi_sector b))
       (target_to_device_sect dmh (bi_sector b))).
Proof.
  intros Hr Hop Hlt Hgt.
  pose proof Hr as (Hs & Hsz & He).
  destruct (sector_split dmh Hok _ Hs) as (z & off & Heq & Ho & Hz & Hzn & Hm).
  pose proof (target_len_range dmh Hok) as Hl.
  pose proof (bio_sectors_range b Hsz) as Hn.
  pose proof (gk_size_pos dmh Hok) as Hp.
  unfold dm_po2z_map.
  replace (bio_sectors (bio_set_dev b (dev dmh))) with (bio_sectors b)
    by reflexivity.
  rewrite (across_on_target _ (bio_set_dev_on_target b Hr)).
  replace (bio_sectors (bio_set_dev b (dev dmh))) with (bio_sectors b)
    by reflexivity.
  cbn [bi_op bi_sector bio_set_dev]. rewrite Hop.
  assert (Hne : (bio_sectors b =? 0) = false) by (apply Z.eqb_neq; lia).
  rewrite Hne. cbn [negb orb req_op_eqb].
  destruct (Z.ltb_spec (boundary dmh (bi_sector b)) (bi_sector b + bio_sectors b));
    [| lia].
  cbn [negb]. unfold dm_po2z_map_read_emulated_area.
  cbv zeta.
  change (bi_sector (bio_set_dev b (dev dmh))) with (bi_sector b).
  unfold boundary in *. rewrite Hzn in *.
  destruct Hs as [Hs0 Hs1]. unfold target_len in *.
  rewrite (u64_small (z * zone_size_po2 dmh)) by nia.
  rewrite (u64_small (bi_sector b - z * zone_size_po2 dmh)) by nia.
  rewrite (u64_small (z * zone_size_po2 dmh + zone_size dmh)) by nia.
  destruct (Z.ltb_spec (bi_sector b - z * zone_size_po2 dmh) (zone_size dmh));
    [| lia].
  rewrite (u64_small (z * zone_size_po2 dmh + zone_size dmh - bi_sector b))
    by lia.
  reflexivity.
Qed.

(** Step 4, a read that starts in the emulated part of its zone: the
    payload is zeroed and the request completed by the target itself. *)
Lemma map_read_emulated (b : bio) :
  request_on_target dmh b ->
  bi_op b = REQ_OP_READ ->
  bio_sectors b <> 0 ->
  boundary dmh (bi_sector b) <= bi_sector b ->
  dm_po2z_map dmh b
  = (DM_MAPIO_SUBMITTED, bio_endio (zero_fill_bio (bio_set_dev b (dev dmh)))).
Proof.
  intros Hr Hop Hne Hge.
  pose proof Hr as (Hs & Hsz & He).
  destruct (sector_split dmh Hok _ Hs) as (z & off & Heq & Ho & Hz & Hzn & Hm).
  pose proof (target_len_range dmh Hok) as Hl.
  pose proof (bio_sectors_range b Hsz) as Hn.
  pose proof (gk_size_pos dmh Hok) as Hp.
  unfold dm_po2z_map.
  replace (bio_sectors (bio_set_dev b (dev dmh))) with (bio_sectors b)
    by reflexivity.
  rewrite (across_on_target _ (bio_set_dev_on_target b Hr)).
  replace (bio_sectors (bio_set_dev b (dev dmh))) with (bio_sectors b)
    by reflexivity.
  cbn [bi_op bi_sector bio_set_dev]. rewrite Hop.
  apply Z.eqb_neq in Hne. rewrite Hne. cbn [negb orb req_op_eqb].
  apply Z.eqb_neq in Hne.
  destruct (Z.ltb_spec (boundary dmh (bi_sector b)) (bi_sector b + bio_sectors b));
    [| lia].
  cbn [negb]. unfold dm_po2z_map_read_emulated_area.
  cbv zeta.
  change (bi_sector (bio_set_dev b (dev dmh))) with (bi_sector b).
  unfold boundary in *. rewrite Hzn in *.
  destruct Hs as [Hs0 Hs1]. unfold target_len in *.
  rewrite (u64_small (z * zone_size_po2 dmh)) by nia.
  rewrite (u64_small (bi_sector b - z * zone_size_po2 dmh)) by nia.
  destruct (Z.ltb_spec (bi_sector b - z * zone_size_po2 dmh) (zone_size dmh));
    [lia | reflexivity].
Qed.

(** The accepted part of a split read has as many sectors as lie before
    the boundary, and what is resubmitted starts at the boundary. *)
Lemma accepted_and_remainder (b : bio) (n : Z) (s : Z) :
  0 <= bi_size b < 2 ^ 32 ->
  0 <= n <= bio_sectors b ->
  let b1 := set_bi_sector (dm_accept_partial_bio (bio_set_dev b (dev dmh)) n) s in
  bio_sectors b1 = n
  /\ bi_size b1 = n * 512
  /\ bi_sector (remainder b b1) = bi_sector b + n
  /\ bio_sectors (remainder b b1) = bio_sectors b - n
  /\ bi_size (remainder b b1) = bi_size b - n * 512
  /\ bi_op (remainder b b1) = bi_op b.
Proof.
  intros Hsz Hn b1.
  pose proof (bio_sectors_range b Hsz) as Hr.
  assert (Hsize : bi_size b1 = n * 512).
  { subst b1. cbn [bi_size set_bi_sector dm_accept_partial_bio bio_set_dev].
    unfold SECTOR_SHIFT. rewrite (u32_small n) by lia.
    rewrite Z.shiftl_mul_pow2 by lia. change (2 ^ 9) with 512.
    apply u32_small. lia. }
  assert (Hsec : bio_sectors b1 = n).
  { unfold bio_sectors, SECTOR_SHIFT. rewrite Hsize.
    rewrite Z.shiftr_div_pow2 by lia. change (2 ^ 9) with 512.
    apply Z.div_mul. lia. }
  repeat split; auto.
  - unfold remainder. cbn [bi_sector]. rewrite Hsec. reflexivity.
  - unfold remainder, bio_sectors at 1. cbn [bi_size]. rewrite Hsize.
    unfold bio_sectors, SECTOR_SHIFT.
    rewrite !Z.shiftr_div_pow2 by lia. change (2 ^ 9) with 512.
    replace (bi_size b - n * 512) with (bi_size b + (- n) * 512) by lia.
    rewrite Z.div_add by lia. lia.
  - unfold remainder. cbn [bi_size]. rewrite Hsize. reflexivity.
Qed.

Lemma remainder_payload (b b1 : bio) :
  payload_sized b ->
  0 <= bi_size b1 <= bi_size b ->
  payload_sized (remainder b b1).
Proof.
  unfold payload_sized, remainder. cbn [bi_data bi_size]. intros Hl Hn.
  rewrite length_skipn, Hl. lia.
Qed.

End Routing.

(** ** Completion *)

Lemma end_io_cases (dmh : dm_po2z_target) (b : bio) (error : Z) :
  (bi_op b = REQ_OP_ZONE_APPEND /\ bi_status b = BLK_STS_OK
   /\ dm_po2z_end_io dmh b error
      = (DM_ENDIO_DONE,
         set_bi_sector b (device_to_target_sect dmh (bi_sector b)), error))
  \/ (~ (bi_op b = REQ_OP_ZONE_APPEND /\ bi_status b = BLK_STS_OK)
      /\ dm_po2z_end_io dmh b error = (DM_ENDIO_DONE, b, error)).
Proof.
  unfold dm_po2z_end_io.
  destruct (Z.eqb_spec (bi_status b) BLK_STS_OK) as [Hs | Hs];
    destruct (req_op_eqb_spec (bi_op b) REQ_OP_ZONE_APPEND) as [Ho | Ho];
    cbn [andb]; [left; auto | right | right | right];
    (split; [intros [? ?]; contradiction | reflexivity]).
Qed.

(** ** Zone reports *)

Lemma report_zones_cb_unfold {D : Type} (zone : blk_zone) (idx : Z)
    (args : dm_report_zones_args D) :
  dm_po2z_report_zones_cb zone idx args
  = (fst (orig_cb args (translated (tgt args) zone) (zone_idx args)
            (orig_data args)),
     translated (tgt args) zone,
     mk_dm_report_zones_args (tgt args)
       (u64 (start (translated (tgt args) zone)
             + len (translated (tgt args) zone)))
       (snd (orig_cb args (translated (tgt args) zone) (zone_idx args)
               (orig_data args)))
       (orig_cb args) (u32 (zone_idx args + 1))).
Proof.
  unfold dm_po2z_report_zones_cb, translated. cbn [start len wp type cond
    non_seq reset capacity].
  destruct (orig_cb args _ (zone_idx args) (orig_data args)) as [ret data'].
  reflexivity.
Qed.

(** With a caller that collects what it is given, an enumeration hands over
    the translated descriptors in the order of the physical ones. *)
Lemma report_loop_collects (dmh : dm_po2z_target) (zones : list blk_zone) :
  forall (idx cursor zidx : Z) (acc : list blk_zone),
    exists cursor' zidx',
      report_loop dm_po2z_report_zones_cb zones idx
        (mk_dm_report_zones_args dmh cursor acc collect_cb zidx)
      = (idx + Z.of_nat (List.length zones),
         mk_dm_report_zones_args dmh cursor'
           (acc ++ map (translated dmh) zones) collect_cb zidx').
Proof.
  induction zones as [| z rest IH]; intros idx cursor zidx acc.
  - exists cursor, zidx. cbn. rewrite app_nil_r, Z.add_0_r. reflexivity.
  - cbn [report_loop]. rewrite report_zones_cb_unfold.
    cbn [tgt orig_cb orig_data zone_idx collect_cb fst snd Z.eqb].
    destruct (IH (idx + 1)
                (u64 (start (translated dmh z) + len (translated dmh z)))
                (u32 (zidx + 1)) (acc ++ [translated dmh z]))
      as (c' & i' & E).
    exists c', i'. rewrite E. cbn [map List.length].
    rewrite <- app_assoc. cbn [app].
    f_equal. lia.
Qed.

Section Reports.

Variable dmh : dm_po2z_target.
Hypothesis Hok : geometry_ok dmh.

(** The physical-to-logical transform without wrap-around, up to and
    including the end of the device. *)
Lemma device_to_target_on_device (p : Z) :
  0 <= p <= nr_zones dmh * zone_size dmh ->
  device_to_target_sect dmh p
  = p + p / zone_size dmh * zone_size_diff dmh
  /\ 0 <= p + p / zone_size dmh * zone_size_diff dmh <= target_len dmh.
Proof.
  intros Hp.
  pose proof (diff_range dmh Hok) as Hd.
  pose proof (target_len_range dmh Hok) as Hl.
  destruct Hok as [Hs _ _ Hc Hdf Hz _]. unfold target_len in *.
  assert (Hq : 0 <= p / zone_size dmh <= nr_zones dmh).
  { split; [apply Z.div_pos; lia |].
    apply Z.div_le_upper_bound; lia. }
  pose proof (Z.mul_div_le p (zone_size dmh) Hs) as Hm.
  assert (Hb : 0 <= p + p / zone_size dmh * zone_size_diff dmh
               <= zone_size_po2 dmh * nr_zones dmh).
  { rewrite Hdf. nia. }
  unfold device_to_target_sect, npo2_zone_no, div64_u64.
  rewrite (u32_small (p / zone_size dmh)) by lia.
  rewrite (u64_small (p / zone_size dmh * zone_size_diff dmh)) by nia.
  split; [apply u64_small; lia | exact Hb].
Qed.

(** The descriptor of physical zone [j] becomes that of logical zone [j],
    and the cursor moves to the start of logical zone [j + 1]. *)
Lemma translated_zone_start (j : Z) :
  0 <= j < nr_zones dmh ->
  device_to_target_sect dmh (j * zone_size dmh) = j * zone_size_po2 dmh
  /\ u64 (j * zone_size_po2 dmh + zone_size_po2 dmh)
     = (j + 1) * zone_size_po2 dmh.
Proof.
  intros Hj.
  pose proof (target_len_range dmh Hok) as Hl.
  pose proof (po2_pos dmh Hok) as Hpp.
  pose proof (gk_size_pos dmh Hok) as Hs.
  pose proof (gk_diff dmh Hok) as Hdf.
  unfold target_len in Hl.
  destruct (device_to_target_on_device (j * zone_size dmh)) as [E _]; [nia |].
  rewrite E, Z.div_mul by lia. split; [rewrite Hdf; lia |].
  rewrite u64_small by nia. lia.
Qed.

(** On the device the start of the physical query is the product of the
    unbounded integers. *)
Lemma report_zones_sect_on_target {D : Type} (args : dm_report_zones_args D) :
  on_target dmh (next_sector args) ->
  report_zones_sect dmh args
  = po2_zone_no dmh (next_sector args) * zone_size dmh
  /\ po2_zone_no dmh (next_sector args)
     = next_sector args / zone_size_po2 dmh.
Proof.
  intros Hs.
  destruct (po2_zone_no_on_target dmh Hok _ Hs) as [Hq Hr].
  pose proof (target_len_range dmh Hok) as Hl.
  destruct Hok as [Hp _ _ Hc _ Hz _]. unfold target_len in *.
  split; [| exact Hq].
  unfold report_zones_sect. rewrite Hq. apply u64_small. nia.
Qed.

End Reports.

(** * The claims *)

Lemma geo12_ok : geometry_ok geo12.
Proof. constructor; cbn; lia. Qed.

(** ** Coordinate transforms *)

(** C1. Round trip: on a well-formed geometry, every sector [s] of the
    logical device whose offset within its logical zone is less than the
    physical zone size satisfies
    [device_to_target_sect (target_to_device_sect s) = s]. *)
Theorem round_trip (dmh : dm_po2z_target) (s : Z) :
  geometry_ok dmh ->
  on_target dmh s ->
  s mod zone_size_po2 dmh < zone_size dmh ->
  device_to_target_sect dmh (target_to_device_sect dmh s) = s.
Proof.
  intros Hok Hs Hb. exact (backed_round_trip dmh Hok s Hs Hb).
Qed.

Lemma round_trip_witness :
  geometry_ok geo12
  /\ on_target geo12 27
  /\ 27 mod zone_size_po2 geo12 < zone_size geo12
  /\ device_to_target_sect geo12 (target_to_device_sect geo12 27) = 27.
Proof.
  assert (H1 : geometry_ok geo12) by (constructor; cbn; lia).
  assert (H2 : on_target geo12 27) by (unfold on_target, target_len; cbn; lia).
  assert (H3 : 27 mod zone_size_po2 geo12 < zone_size geo12)
    by (vm_compute; reflexivity).
  exact (conj H1 (conj H2 (conj H3 (round_trip geo12 27 H1 H2 H3)))).
Defined.

(** C10. A physically backed sector [s] of the logical device is remapped
    into the physical zone of the same number at the same offset:
    [target_to_device_sect s = po2_zone_no s * zone_size
     + s mod zone_size_po2], and the physical zone number of the image is
    the logical zone number of [s]. *)
Theorem backed_sector_same_zone (dmh : dm_po2z_target) (s : Z) :
  geometry_ok dmh ->
  on_target dmh s ->
  s mod zone_size_po2 dmh < zone_size dmh ->
  target_to_device_sect dmh s
  = po2_zone_no dmh s * zone_size dmh + s mod zone_size_po2 dmh
  /\ npo2_zone_no dmh (target_to_device_sect dmh s) = po2_zone_no dmh s.
Proof.
  intros Hok Hs Hb. exact (backed_sector_image dmh Hok s Hs Hb).
Qed.

Lemma backed_sector_same_zone_witness :
  geometry_ok geo12
  /\ on_target geo12 43
  /\ 43 mod zone_size_po2 geo12 < zone_size geo12
  /\ target_to_device_sect geo12 43
     = po2_zone_no geo12 43 * zone_size geo12 + 43 mod zone_size_po2 geo12
  /\ npo2_zone_no geo12 (target_to_device_sect geo12 43) = po2_zone_no geo12 43.
Proof.
  assert (H1 : geometry_ok geo12) by (constructor; cbn; lia).
  assert (H2 : on_target geo12 43) by (unfold on_target, target_len; cbn; lia).
  assert (H3 : 43 mod zone_size_po2 geo12 < zone_size geo12)
    by (vm_compute; reflexivity).
  exact (conj H1 (conj H2 (conj H3 (backed_sector_same_zone geo12 43 H1 H2 H3)))).
Defined.

(** Past the end of the logical device the zone number no longer fits
    [unsigned int]: sector 2^36 of the sixteen-sector geometry gets zone
    number 0 and is not restored by the round trip. *)
Example zone_number_wraps_past_device :
  po2_zone_no geo12 (2 ^ 36) = 0
  /\ device_to_target_sect geo12 (target_to_device_sect geo12 (2 ^ 36))
     <> 2 ^ 36.
Proof. split; vm_compute; congruence. Qed.

(** ** Construction *)

(** C5, as the claim states it, fails: a device of 2^32 zones of three
    sectors is accepted, and the zone count stored is 0, not the quotient
    of capacity and zone size; the exposed length is 0 as well. *)
Lemma ctr_zone_count_wraps :
  let d := mk_block_device 3 (3 * 2 ^ 32) [] in
  let ti := mk_dm_target 0 (3 * 2 ^ 32) 0 None None in
  0 < bdev_zone_sectors d
  /\ exists dmh ti',
       dm_po2z_ctr ti 1 true (DevOpened d) = (0, ti')
       /\ ti_private ti' = Some dmh
       /\ nr_zones dmh = 0
       /\ nr_zones dmh <> get_capacity d / bdev_zone_sectors d
       /\ ti_len ti'
          <> zone_size_po2 dmh * (get_capacity d / bdev_zone_sectors d).
Proof.
  cbv zeta. split; [cbn; lia |].
  eexists. eexists.
  split; [vm_compute; reflexivity |].
  split; [reflexivity |].
  split; [reflexivity |].
  split; vm_compute; discriminate.
Qed.

(** C5, amended. For a physical zone size between 1 and 2^30 sectors and a
    capacity that holds fewer than 2^32 zones, construction succeeds and
    stores: the smallest power of two that is at least the zone size
    (equal to it exactly when the zone size is a power of two) together
    with its logarithm, the difference of the two sizes, the zone count
    [capacity / zone_size], and it sets the length of the logical device
    to the product of the power-of-two size and the zone count. *)
Theorem ctr_geometry (ti : dm_target) (d : block_device) :
  0 < bdev_zone_sectors d <= 2 ^ 30 ->
  0 <= get_capacity d < 2 ^ 64 ->
  get_capacity d / bdev_zone_sectors d < 2 ^ 32 ->
  ti_len ti = get_capacity d ->
  ti_begin ti = 0 ->
  exists dmh ti',
    dm_po2z_ctr ti 1 true (DevOpened d) = (0, ti')
    /\ ti_private ti' = Some dmh
    /\ zone_size dmh = bdev_zone_sectors d
    /\ zone_size_po2 dmh = 2 ^ zone_size_po2_shift dmh
    /\ 0 <= zone_size_po2_shift dmh
    /\ bdev_zone_sectors d <= zone_size_po2 dmh
    /\ (forall k, 0 <= k -> bdev_zone_sectors d <= 2 ^ k ->
                  zone_size_po2 dmh <= 2 ^ k)
    /\ (zone_size_po2 dmh = bdev_zone_sectors d
        <-> exists k, 0 <= k /\ bdev_zone_sectors d = 2 ^ k)
    /\ zone_size_diff dmh = zone_size_po2 dmh - bdev_zone_sectors d
    /\ nr_zones dmh = get_capacity d / bdev_zone_sectors d
    /\ ti_len ti' = zone_size_po2 dmh * nr_zones dmh
    /\ ti_max_io_len ti' = zone_size_po2 dmh.
Proof.
  intros Hzs Hcap Hnr Hlen Hbeg.
  exists (constructed d). eexists.
  split; [apply ctr_builds; [repeat split; lia | exact Hlen | exact Hbeg] |].
  unfold constructed. cbn [ti_private ti_len ti_max_io_len zone_size
    zone_size_po2 zone_size_po2_shift zone_size_diff nr_zones].
  repeat split.
  - apply Z.log2_up_nonneg.
  - apply po2_covers. exact Hzs.
  - apply po2_least. exact Hzs.
  - apply po2_equal_iff.
  - apply po2_equal_iff.
Qed.

Lemma ctr_geometry_witness :
  (0 < bdev_zone_sectors dev12 <= 2 ^ 30)
  /\ (0 <= get_capacity dev12 < 2 ^ 64)
  /\ get_capacity dev12 / bdev_zone_sectors dev12 < 2 ^ 32
  /\ exists dmh ti',
       dm_po2z_ctr ti12 1 true (DevOpened dev12) = (0, ti')
       /\ ti_private ti' = Some dmh
       /\ zone_size_po2 dmh = 2 ^ zone_size_po2_shift dmh
       /\ zone_size_diff dmh = zone_size_po2 dmh - bdev_zone_sectors dev12
       /\ nr_zones dmh = get_capacity dev12 / bdev_zone_sectors dev12
       /\ ti_len ti' = zone_size_po2 dmh * nr_zones dmh.
Proof.
  assert (H1 : 0 < bdev_zone_sectors dev12 <= 2 ^ 30) by (cbn; lia).
  assert (H2 : 0 <= get_capacity dev12 < 2 ^ 64) by (cbn; lia).
  assert (H3 : get_capacity dev12 / bdev_zone_sectors dev12 < 2 ^ 32)
    by (vm_compute; reflexivity).
  split; [exact H1 |]. split; [exact H2 |]. split; [exact H3 |].
  destruct (ctr_geometry ti12 dev12 H1 H2 H3 eq_refl eq_refl)
    as (dmh & ti' & E & Hp & _ & Hpo & _ & _ & _ & _ & Hd & Hn & Hl & _).
  exists dmh, ti'. repeat split; assumption.
Defined.

(** The example of the specification: twelve-sector zones on a device of
    120 sectors give sixteen-sector logical zones and 160 logical
    sectors. *)
Example ctr_dev12 :
  dm_po2z_ctr ti12 1 true (DevOpened dev12)
  = (0, mk_dm_target 0 160 16 (Some geo12) None).
Proof. vm_compute. reflexivity. Qed.

(** Above 2^30 sectors per zone the shift, done in [int], leaves the range
    of [int]; with the wrapping conversion of this development the stored
    size is 2^64 - 2^31, which is no power of two. *)
Example ctr_shift_in_int :
  let d := mk_block_device (2 ^ 30 + 1) (2 ^ 30 + 1) [] in
  let ti := mk_dm_target 0 (2 ^ 30 + 1) 0 None None in
  option_map zone_size_po2 (ti_private (snd (dm_po2z_ctr ti 1 true (DevOpened d))))
  = Some (2 ^ 64 - 2 ^ 31).
Proof. vm_compute. reflexivity. Qed.

Example ctr_partial_mapping :
  fst (dm_po2z_ctr (mk_dm_target 0 60 0 None None) 1 true (DevOpened dev12))
  = - EINVAL.
Proof. vm_compute. reflexivity. Qed.

(** ** Request routing *)

Lemma boundary_in_zone (dmh : dm_po2z_target) (s : Z) :
  geometry_ok dmh ->
  zone_size dmh < zone_size_po2 dmh ->
  on_target dmh s ->
  on_target dmh (boundary dmh s)
  /\ boundary dmh (boundary dmh s) = boundary dmh s.
Proof.
  intros Hok Hlt Hs.
  destruct (sector_split dmh Hok _ Hs) as (z & off & Heq & Ho & Hz & Hzn & Hm).
  pose proof (gk_size_pos dmh Hok) as Hp.
  assert (Hon : on_target dmh (boundary dmh s)).
  { unfold on_target, target_len, boundary. rewrite Hzn. nia. }
  split; [exact Hon |].
  destruct (po2_zone_no_on_target dmh Hok _ Hon) as [Hq _].
  unfold boundary at 1. rewrite Hq. unfold boundary. rewrite Hzn.
  rewrite Z.div_add_l by lia. rewrite Z.div_small by lia.
  rewrite Z.add_0_r. reflexivity.
Qed.

(** C2. A request to the logical device that carries at least one sector
    or is a zone-management command, and that ends at or before the
    boundary of its zone, is remapped: the routing answers
    [DM_MAPIO_REMAPPED], the start sector becomes
    [target_to_device_sect start] and the length is unchanged. *)
Theorem map_remaps_backed_request (dmh : dm_po2z_target) (b : bio) :
  geometry_ok dmh ->
  on_target dmh (bi_sector b) ->
  0 <= bi_size b < 2 ^ 32 ->
  bio_sectors b <> 0 \/ op_is_zone_mgmt (bi_op b) = true ->
  bi_sector b + bio_sectors b <= boundary dmh (bi_sector b) ->
  exists b',
    dm_po2z_map dmh b = (DM_MAPIO_REMAPPED, b')
    /\ bi_sector b' = target_to_device_sect dmh (bi_sector b)
    /\ bi_size b' = bi_size b
    /\ bio_sectors b' = bio_sectors b
    /\ bi_op b' = bi_op b
    /\ bi_data b' = bi_data b
    /\ bi_bdev b' = Some (dev dmh).
Proof.
  intros Hok Hs Hsz Hg Hle.
  eexists. split; [apply (map_backed dmh Hok b Hs Hsz Hg Hle) |].
  repeat split.
Qed.

Lemma map_remaps_backed_request_witness :
  let b := mk_req REQ_OP_WRITE 20 8 in
  geometry_ok geo12
  /\ on_target geo12 (bi_sector b)
  /\ bi_sector b + bio_sectors b <= boundary geo12 (bi_sector b)
  /\ exists b',
       dm_po2z_map geo12 b = (DM_MAPIO_REMAPPED, b')
       /\ bi_sector b' = target_to_device_sect geo12 (bi_sector b)
       /\ bi_size b' = bi_size b
       /\ bio_sectors b' = bio_sectors b
       /\ bi_op b' = bi_op b
       /\ bi_data b' = bi_data b
       /\ bi_bdev b' = Some (dev geo12).
Proof.
  intros b.
  assert (H1 : geometry_ok geo12) by (constructor; cbn; lia).
  assert (H2 : on_target geo12 (bi_sector b))
    by (unfold on_target, target_len; cbn; lia).
  assert (H3 : 0 <= bi_size b < 2 ^ 32) by (cbn; lia).
  assert (H4 : bio_sectors b <> 0 \/ op_is_zone_mgmt (bi_op b) = true)
    by (left; vm_compute; discriminate).
  assert (H5 : bi_sector b + bio_sectors b <= boundary geo12 (bi_sector b))
    by (vm_compute; discriminate).
  exact (conj H1 (conj H2 (conj H5
           (map_remaps_backed_request geo12 b H1 H2 H3 H4 H5)))).
Defined.

(** C3, as the claim states it, fails on a geometry without emulated part.
    The constructor builds the sixteen-sector geometry from a device with
    sixteen-sector zones; there the read of logical sectors 10..19 covers
    six sectors before the boundary of zone 0 and four from it on.  The
    six sectors are accepted and remapped, but the remainder, which
    starts at the boundary, lies at the start of zone 1: it is answered
    [DM_MAPIO_REMAPPED], not ended, and its payload is left as it was,
    not zero-filled. *)
Lemma read_split_without_emulated_part :
  let b := mk_req REQ_OP_READ 10 10 in
  dm_po2z_ctr ti16 1 true (DevOpened dev16)
  = (0, mk_dm_target 0 160 16 (Some geo16) None)
  /\ geometry_ok geo16
  /\ request_on_target geo16 b
  /\ payload_sized b
  /\ bi_op b = REQ_OP_READ
  /\ bi_sector b = boundary geo16 (bi_sector b) - 6
  /\ bio_sectors b = 6 + 4
  /\ exists b1 r1,
       dm_po2z_map geo16 b = (DM_MAPIO_REMAPPED, b1)
       /\ bi_sector b1 = target_to_device_sect geo16 (bi_sector b)
       /\ bio_sectors b1 = 6
       /\ bi_op (remainder b b1) = REQ_OP_READ
       /\ bi_sector (remainder b b1) = boundary geo16 (bi_sector b)
       /\ bio_sectors (remainder b b1) = 4
       /\ dm_po2z_map geo16 (remainder b b1) = (DM_MAPIO_REMAPPED, r1)
       /\ bi_ended r1 = false
       /\ bi_data r1 = bi_data (remainder b b1)
       /\ bi_data r1 <> repeat Byte.x00 (Z.to_nat (bi_size (remainder b b1))).
Proof.
  cbv zeta.
  split; [vm_compute; reflexivity |].
  split; [constructor; cbn; lia |].
  split; [unfold request_on_target, on_target, target_len;
          repeat split; vm_compute; congruence |].
  split; [vm_compute; reflexivity |].
  split; [reflexivity |].
  split; [vm_compute; reflexivity |].
  split; [vm_compute; reflexivity |].
  eexists. eexists.
  split; [vm_compute; reflexivity |].
  split; [vm_compute; reflexivity |].
  split; [vm_compute; reflexivity |].
  split; [reflexivity |].
  split; [vm_compute; reflexivity |].
  split; [vm_compute; reflexivity |].
  split; [vm_compute; reflexivity |].
  split; [reflexivity |].
  split; [vm_compute; reflexivity |].
  vm_compute. discriminate.
Qed.

(** C3, amended.  On a geometry whose zones have an emulated part
    ([zone_size < zone_size_po2]), a read on the logical device that
    covers the [k] sectors before the boundary of its zone and [m]
    sectors from the boundary on ([k], [m] positive) is accepted for
    exactly [k] sectors and remapped to [target_to_device_sect start];
    the remainder, a read of [m] sectors that starts at the boundary, is
    zero-filled and completed by the target itself
    ([DM_MAPIO_SUBMITTED]: it is not sent to the physical device). *)
Theorem read_split_at_boundary (dmh : dm_po2z_target) (b : bio) (k m : Z) :
  geometry_ok dmh ->
  zone_size dmh < zone_size_po2 dmh ->
  request_on_target dmh b ->
  payload_sized b ->
  bi_op b = REQ_OP_READ ->
  0 < k -> 0 < m ->
  bi_sector b = boundary dmh (bi_sector b) - k ->
  bio_sectors b = k + m ->
  exists b1 r1,
    dm_po2z_map dmh b = (DM_MAPIO_REMAPPED, b1)
    /\ bi_sector b1 = target_to_device_sect dmh (bi_sector b)
    /\ bio_sectors b1 = k
    /\ bi_op (remainder b b1) = REQ_OP_READ
    /\ bi_sector (remainder b b1) = boundary dmh (bi_sector b)
    /\ bio_sectors (remainder b b1) = m
    /\ dm_po2z_map dmh (remainder b b1) = (DM_MAPIO_SUBMITTED, r1)
    /\ bi_ended r1 = true
    /\ bi_sector r1 = boundary dmh (bi_sector b)
    /\ bi_size r1 = bi_size (remainder b b1)
    /\ bi_data r1 = repeat Byte.x00 (Z.to_nat (bi_size (remainder b b1))).
Proof.
  intros Hok Hlt Hr Hpay Hop Hk Hm Hstart Hlen.
  pose proof Hr as (Hs & Hsz & He).
  pose proof (bio_sectors_range b Hsz) as Hn.
  destruct (boundary_in_zone dmh (bi_sector b) Hok Hlt Hs) as [Hon Hbb].
  set (bnd := boundary dmh (bi_sector b)) in *.
  set (b1 := set_bi_sector
               (dm_accept_partial_bio (bio_set_dev b (dev dmh))
                  (bnd - bi_sector b))
               (target_to_device_sect dmh (bi_sector b))).
  destruct (accepted_and_remainder dmh b (bnd - bi_sector b)
              (target_to_device_sect dmh (bi_sector b)) Hsz ltac:(lia))
    as (Hs1 & Hz1 & Hrs & Hrn & Hrz & Hro).
  fold b1 in Hs1, Hz1, Hrs, Hrn, Hrz, Hro.
  set (r := remainder b b1) in *.
  assert (Hrt : request_on_target dmh r).
  { destruct Hon as [Hon0 Hon1]. unfold request_on_target, on_target.
    repeat split; lia. }
  assert (Hrb : boundary dmh (bi_sector r) <= bi_sector r).
  { rewrite Hrs. replace (bi_sector b + (bnd - bi_sector b)) with bnd by lia.
    rewrite Hbb. lia. }
  assert (Hrp : payload_sized r).
  { apply remainder_payload; [exact Hpay | lia]. }
  exists b1, (bio_endio (zero_fill_bio (bio_set_dev r (dev dmh)))).
  fold r. fold bnd.
  split; [apply (map_read_split dmh Hok b Hr Hop); lia |].
  split; [reflexivity |].
  split; [lia |].
  split; [rewrite Hro; exact Hop |].
  split; [lia |].
  split; [lia |].
  split; [apply (map_read_emulated dmh Hok r Hrt); [rewrite Hro; exact Hop | lia | exact Hrb] |].
  split; [reflexivity |].
  split; [cbn [bi_sector bio_endio zero_fill_bio bio_set_dev]; lia |].
  split; [reflexivity |].
  cbn [bi_data bio_endio].
  exact (zero_fill_payload (bio_set_dev r (dev dmh)) Hrp).
Qed.

Lemma read_split_at_boundary_witness :
  let b := mk_req REQ_OP_READ 10 10 in
  geometry_ok geo12
  /\ zone_size geo12 < zone_size_po2 geo12
  /\ request_on_target geo12 b
  /\ payload_sized b
  /\ bi_sector b = boundary geo12 (bi_sector b) - 2
  /\ bio_sectors b = 2 + 8
  /\ exists b1 r1,
       dm_po2z_map geo12 b = (DM_MAPIO_REMAPPED, b1)
       /\ bi_sector b1 = target_to_device_sect geo12 (bi_sector b)
       /\ bio_sectors b1 = 2
       /\ bi_sector (remainder b b1) = boundary geo12 (bi_sector b)
       /\ bio_sectors (remainder b b1) = 8
       /\ dm_po2z_map geo12 (remainder b b1) = (DM_MAPIO_SUBMITTED, r1)
       /\ bi_ended r1 = true
       /\ bi_data r1 = repeat Byte.x00 (Z.to_nat (bi_size (remainder b b1))).
Proof.
  intros b.
  assert (H1 : geometry_ok geo12) by (constructor; cbn; lia).
  assert (H2 : zone_size geo12 < zone_size_po2 geo12) by (cbn; lia).
  assert (H3 : request_on_target geo12 b).
  { unfold request_on_target, on_target, target_len.
    repeat split; vm_compute; congruence. }
  assert (H4 : payload_sized b) by (vm_compute; reflexivity).
  assert (H5 : bi_op b = REQ_OP_READ) by reflexivity.
  assert (H6 : 0 < 2) by lia.
  assert (H7 : 0 < 8) by lia.
  assert (H8 : bi_sector b = boundary geo12 (bi_sector b) - 2)
    by (vm_compute; reflexivity).
  assert (H9 : bio_sectors b = 2 + 8) by (vm_compute; reflexivity).
  split; [exact H1 |]. split; [exact H2 |]. split; [exact H3 |].
  split; [exact H4 |]. split; [exact H8 |]. split; [exact H9 |].
  destruct (read_split_at_boundary geo12 b 2 8 H1 H2 H3 H4 H5 H6 H7 H8 H9)
    as (b1 & r1 & E1 & Es & Ek & _ & Er & Em & E2 & Ee & _ & _ & Ed).
  exists b1, r1. repeat split; assumption.
Defined.

(** The example of the specification: the read of logical sectors 10..19
    is cut to the two sectors 10 and 11, which keep their numbers on the
    device. *)
Example read_10_20 :
  let r := dm_po2z_map geo12 (mk_req REQ_OP_READ 10 10) in
  (fst r, bi_sector (snd r), bio_sectors (snd r)) = (DM_MAPIO_REMAPPED, 10, 2).
Proof. vm_compute. reflexivity. Qed.

Example read_12_20 :
  let r := dm_po2z_map geo12 (mk_req REQ_OP_READ 12 8) in
  (fst r, bi_ended (snd r), bi_data (snd r))
  = (DM_MAPIO_SUBMITTED, true, repeat Byte.x00 4096).
Proof. vm_compute. reflexivity. Qed.

Example write_16_28 :
  let r := dm_po2z_map geo12 (mk_req REQ_OP_WRITE 16 12) in
  (fst r, bi_sector (snd r), bio_sectors (snd r)) = (DM_MAPIO_REMAPPED, 12, 12).
Proof. vm_compute. reflexivity. Qed.

(** C4, as the claim states it, fails: a write without sectors whose start
    lies in the emulated part of zone 0 is past the boundary and is not a
    read, yet the routing answers [DM_MAPIO_REMAPPED]. *)
Lemma emulated_empty_write_not_rejected :
  let b := mk_req REQ_OP_WRITE 13 0 in
  bi_op b <> REQ_OP_READ
  /\ boundary geo12 (bi_sector b) < bi_sector b + bio_sectors b
  /\ fst (dm_po2z_map geo12 b) = DM_MAPIO_REMAPPED
  /\ fst (dm_po2z_map geo12 b) <> DM_MAPIO_KILL.
Proof.
  cbv zeta. split; [discriminate |].
  split; [vm_compute; reflexivity |].
  split; [vm_compute; reflexivity | vm_compute; discriminate].
Qed.

(** C4, amended. A request to the logical device that carries at least one
    sector or is a zone-management command, that is not a read and that
    runs past the boundary of its zone ([start + length > boundary]) is
    rejected: the routing answers [DM_MAPIO_KILL] and leaves sector,
    length and payload as they were. *)
Theorem emulated_non_read_rejected (dmh : dm_po2z_target) (b : bio) :
  geometry_ok dmh ->
  request_on_target dmh b ->
  bio_sectors b <> 0 \/ op_is_zone_mgmt (bi_op b) = true ->
  bi_op b <> REQ_OP_READ ->
  boundary dmh (bi_sector b) < bi_sector b + bio_sectors b ->
  exists b',
    dm_po2z_map dmh b = (DM_MAPIO_KILL, b')
    /\ bi_sector b' = bi_sector b
    /\ bi_size b' = bi_size b
    /\ bi_data b' = bi_data b
    /\ bi_ended b' = bi_ended b.
Proof.
  intros Hok Hr Hg Hop Hgt.
  eexists. split; [apply (map_kill dmh Hok b Hr Hg Hop Hgt) |].
  repeat split.
Qed.

Lemma emulated_non_read_rejected_witness :
  let b := mk_req REQ_OP_WRITE 8 8 in
  geometry_ok geo12
  /\ request_on_target geo12 b
  /\ (bio_sectors b <> 0 \/ op_is_zone_mgmt (bi_op b) = true)
  /\ bi_op b <> REQ_OP_READ
  /\ boundary geo12 (bi_sector b) < bi_sector b + bio_sectors b
  /\ exists b',
       dm_po2z_map geo12 b = (DM_MAPIO_KILL, b')
       /\ bi_sector b' = bi_sector b
       /\ bi_size b' = bi_size b
       /\ bi_data b' = bi_data b
       /\ bi_ended b' = bi_ended b.
Proof.
  intros b.
  assert (H1 : geometry_ok geo12) by (constructor; cbn; lia).
  assert (H2 : request_on_target geo12 b).
  { unfold request_on_target, on_target, target_len.
    repeat split; vm_compute; congruence. }
  assert (H3 : bio_sectors b <> 0 \/ op_is_zone_mgmt (bi_op b) = true)
    by (left; vm_compute; discriminate).
  assert (H4 : bi_op b <> REQ_OP_READ) by discriminate.
  assert (H5 : boundary geo12 (bi_sector b) < bi_sector b + bio_sectors b)
    by (vm_compute; reflexivity).
  exact (conj H1 (conj H2 (conj H3 (conj H4 (conj H5
           (emulated_non_read_rejected geo12 b H1 H2 H3 H4 H5)))))).
Defined.

Example zone_reset_in_emulated_area :
  fst (dm_po2z_map geo12 (mk_req REQ_OP_ZONE_RESET 13 0)) = DM_MAPIO_KILL.
Proof. vm_compute. reflexivity. Qed.

(** C9, as the claim states it, fails: a request without sectors that is
    no zone-management command keeps its sector.  The flush at logical
    sector 16 ends before the boundary of zone 1, so the classification
    would remap it to sector 12, as it does for the zone reset and for the
    one-sector write at the same place; the flush leaves with sector 16.
    The empty write at sector 13 lies past the boundary of zone 0, where
    the classification rejects a one-sector write; it is passed on. *)
Lemma empty_request_not_classified :
  let flush := mk_req REQ_OP_FLUSH 16 0 in
  bio_sectors flush = 0
  /\ bi_sector flush + bio_sectors flush <= boundary geo12 (bi_sector flush)
  /\ target_to_device_sect geo12 (bi_sector flush) = 12
  /\ bi_sector (snd (dm_po2z_map geo12 flush)) = 16
  /\ bi_sector (snd (dm_po2z_map geo12 flush))
     <> target_to_device_sect geo12 (bi_sector flush)
  /\ bi_sector (snd (dm_po2z_map geo12 (mk_req REQ_OP_ZONE_RESET 16 0))) = 12
  /\ bi_sector (snd (dm_po2z_map geo12 (mk_req REQ_OP_WRITE 16 1))) = 12
  /\ fst (dm_po2z_map geo12 (mk_req REQ_OP_WRITE 13 1)) = DM_MAPIO_KILL
  /\ fst (dm_po2z_map geo12 (mk_req REQ_OP_WRITE 13 0)) = DM_MAPIO_REMAPPED.
Proof.
  cbv zeta. repeat split; vm_compute; congruence.
Qed.

(** C9, amended. A request that carries no sectors and is no
    zone-management command bypasses the boundary classification and the
    remapping: the routing answers [DM_MAPIO_REMAPPED], binds the request
    to the backing device and leaves sector, length and payload as they
    were, wherever the sector lies. *)
Theorem empty_request_passes_through (dmh : dm_po2z_target) (b : bio) :
  bio_sectors b = 0 ->
  op_is_zone_mgmt (bi_op b) = false ->
  dm_po2z_map dmh b = (DM_MAPIO_REMAPPED, bio_set_dev b (dev dmh))
  /\ bi_sector (snd (dm_po2z_map dmh b)) = bi_sector b
  /\ bi_size (snd (dm_po2z_map dmh b)) = bi_size b.
Proof.
  intros Hn Hm. rewrite (map_empty dmh b Hn Hm). repeat split.
Qed.

Lemma empty_request_passes_through_witness :
  let b := mk_req REQ_OP_FLUSH 16 0 in
  bio_sectors b = 0
  /\ op_is_zone_mgmt (bi_op b) = false
  /\ dm_po2z_map geo12 b = (DM_MAPIO_REMAPPED, bio_set_dev b (dev geo12))
  /\ bi_sector (snd (dm_po2z_map geo12 b)) = bi_sector b
  /\ bi_size (snd (dm_po2z_map geo12 b)) = bi_size b.
Proof.
  intros b.
  assert (H1 : bio_sectors b = 0) by (vm_compute; reflexivity).
  assert (H2 : op_is_zone_mgmt (bi_op b) = false) by reflexivity.
  exact (conj H1 (conj H2 (empty_request_passes_through geo12 b H1 H2))).
Defined.

(** ** Completion *)

(** C8. The completion hook answers [DM_ENDIO_DONE] and leaves the status
    behind [error] alone.  For a zone append that completed with
    [BLK_STS_OK] the sector becomes [device_to_target_sect sector] and no
    other field changes; for every other operation and every other status
    the request is unchanged, so a sector that changed tells a successful
    zone append. *)
Theorem end_io_rewrites_append (dmh : dm_po2z_target) (b : bio) (error : Z) :
  exists b',
    dm_po2z_end_io dmh b error = (DM_ENDIO_DONE, b', error)
    /\ (bi_op b = REQ_OP_ZONE_APPEND /\ bi_status b = BLK_STS_OK ->
        b' = set_bi_sector b (device_to_target_sect dmh (bi_sector b)))
    /\ (~ (bi_op b = REQ_OP_ZONE_APPEND /\ bi_status b = BLK_STS_OK) ->
        b' = b)
    /\ (bi_sector b' <> bi_sector b ->
        bi_op b = REQ_OP_ZONE_APPEND /\ bi_status b = BLK_STS_OK)
    /\ bi_op b' = bi_op b
    /\ bi_status b' = bi_status b
    /\ bi_size b' = bi_size b
    /\ bi_data b' = bi_data b
    /\ bi_bdev b' = bi_bdev b
    /\ bi_ended b' = bi_ended b.
Proof.
  destruct (end_io_cases dmh b error) as [(Ho & Hs & E) | (Hn & E)];
    rewrite E; eexists; (split; [reflexivity |]).
  - repeat split; auto; intros; tauto.
  - repeat split; auto; intros; try tauto; congruence.
Qed.

Example append_lands_in_zone_2 :
  let b := mk_bio (Some dev12) REQ_OP_ZONE_APPEND BLK_STS_OK 29 4096 [] true in
  bi_sector (snd (fst (dm_po2z_end_io geo12 b 0))) = 37.
Proof. vm_compute. reflexivity. Qed.

Example failed_append_untouched :
  let b := mk_bio (Some dev12) REQ_OP_ZONE_APPEND 10 29 4096 [] true in
  dm_po2z_end_io geo12 b 10 = (DM_ENDIO_DONE, b, 10).
Proof. vm_compute. reflexivity. Qed.

(** ** Zone reports *)

(** C6. For a physical zone descriptor handed to the report callback, the
    descriptor passed on to the caller has
    [start = device_to_target_sect physical.start],
    [wp = device_to_target_sect physical.wp] and
    [len = zone_size_po2] whatever the physical length; the cursor
    [next_sector] is set to [start + len] of the translated descriptor (in
    [sector_t] arithmetic); type, condition, flags and capacity are those
    of the physical descriptor.  The caller's callback receives this
    descriptor with the caller's running index, which then advances by
    one; with a caller that collects its descriptors an enumeration
    delivers the translations in the order of the physical zones. *)
Theorem report_zones_cb_translates :
  (forall (D : Type) (zone : blk_zone) (idx : Z)
          (args : dm_report_zones_args D),
      exists zone' args',
        dm_po2z_report_zones_cb zone idx args
        = (fst (orig_cb args zone' (zone_idx args) (orig_data args)),
           zone', args')
        /\ start zone' = device_to_target_sect (tgt args) (start zone)
        /\ wp zone' = device_to_target_sect (tgt args) (wp zone)
        /\ len zone' = zone_size_po2 (tgt args)
        /\ next_sector args' = u64 (start zone' + len zone')
        /\ type zone' = type zone
        /\ cond zone' = cond zone
        /\ non_seq zone' = non_seq zone
        /\ reset zone' = reset zone
        /\ capacity zone' = capacity zone
        /\ orig_data args'
           = snd (orig_cb args zone' (zone_idx args) (orig_data args))
        /\ zone_idx args' = u32 (zone_idx args + 1)
        /\ tgt args' = tgt args)
  /\ (forall (dmh : dm_po2z_target) (zones : list blk_zone)
             (idx cursor zidx : Z) (acc : list blk_zone),
        orig_data
          (snd (report_loop dm_po2z_report_zones_cb zones idx
                  (mk_dm_report_zones_args dmh cursor acc collect_cb zidx)))
        = acc ++ map (translated dmh) zones).
Proof.
  split.
  - intros D zone idx args.
    eexists. eexists. split; [apply report_zones_cb_unfold |].
    repeat split.
  - intros dmh zones idx cursor zidx acc.
    destruct (report_loop_collects dmh zones idx cursor zidx acc)
      as (c' & i' & E).
    rewrite E. reflexivity.
Qed.

(** The report of two zones of the example device from logical sector 48
    on: logical zones 3 and 4, and the cursor at the start of zone 5. *)
Example report_from_48 :
  let r := dm_po2z_report_zones geo12 (args_at geo12 48) 2 in
  (fst r, next_sector (snd r), map start (orig_data (snd r)),
   map len (orig_data (snd r)), map capacity (orig_data (snd r)))
  = (2, 80, [48; 64], [16; 16], [12; 12]).
Proof. vm_compute. reflexivity. Qed.

(** C7, as the claim states it, fails: for the cursor at logical sector 48,
    the start of logical zone 3, the physical query starts at sector 36,
    the start of physical zone 3, and not at
    [npo2_zone_no 48 * zone_size = 48]. *)
Lemma report_query_not_physical_index :
  let args := args_at geo12 48 in
  report_zones_sect geo12 args = 36
  /\ npo2_zone_no geo12 (next_sector args) * zone_size geo12 = 48
  /\ report_zones_sect geo12 args
     <> npo2_zone_no geo12 (next_sector args) * zone_size geo12.
Proof.
  cbv zeta. repeat split; vm_compute; congruence.
Qed.

(** C7, amended. For a cursor on the logical device, a zone-enumeration
    request starts the physical query at sector
    [po2_zone_no cursor * zone_size]: the zone index is the logical one,
    the cursor divided by the power-of-two zone size, and the query starts
    at the physical zone of that index. *)
Theorem report_query_start (D : Type) (dmh : dm_po2z_target)
    (args : dm_report_zones_args D) (nr : Z) :
  geometry_ok dmh ->
  on_target dmh (next_sector args) ->
  dm_po2z_report_zones dmh args nr
  = blkdev_report_zones (dev dmh)
      (po2_zone_no dmh (next_sector args) * zone_size dmh) nr
      dm_po2z_report_zones_cb args
  /\ report_zones_sect dmh args
     = po2_zone_no dmh (next_sector args) * zone_size dmh
  /\ po2_zone_no dmh (next_sector args)
     = next_sector args / zone_size_po2 dmh.
Proof.
  intros Hok Hs.
  destruct (report_zones_sect_on_target dmh Hok args Hs) as [E Hq].
  unfold dm_po2z_report_zones. rewrite E. repeat split. exact Hq.
Qed.

Lemma report_query_start_witness :
  let args := args_at geo12 48 in
  geometry_ok geo12
  /\ on_target geo12 (next_sector args)
  /\ dm_po2z_report_zones geo12 args 2
     = blkdev_report_zones (dev geo12)
         (po2_zone_no geo12 (next_sector args) * zone_size geo12) 2
         dm_po2z_report_zones_cb args
  /\ report_zones_sect geo12 args
     = po2_zone_no geo12 (next_sector args) * zone_size geo12
  /\ po2_zone_no geo12 (next_sector args)
     = next_sector args / zone_size_po2 geo12.
Proof.
  intros args.
  assert (H1 : geometry_ok geo12) by (constructor; cbn; lia).
  assert (H2 : on_target geo12 (next_sector args))
    by (unfold on_target, target_len; cbn; lia).
  exact (conj H1 (conj H2
           (report_query_start (list blk_zone) geo12 args 2 H1 H2))).
Defined.

(** * Further properties *)

(** ** The transforms seen from the physical device *)

Section DeviceSide.

Variable dmh : dm_po2z_target.
Hypothesis Hok : geometry_ok dmh.

(** The extent of the backing device that the zones cover. *)
Lemma device_sector_split (p : Z) :
  0 <= p < nr_zones dmh * zone_size dmh ->
  exists z off,
    p = z * zone_size dmh + off
    /\ 0 <= off < zone_size dmh
    /\ 0 <= z < nr_zones dmh
    /\ p / zone_size dmh = z
    /\ p mod zone_size dmh = off
    /\ npo2_zone_no dmh p = z.
Proof.
  intros Hp. pose proof (gk_size_pos dmh Hok) as Hs.
  pose proof (gk_zones dmh Hok) as Hz.
  exists (p / zone_size dmh), (p mod zone_size dmh).
  pose proof (Z.div_mod p (zone_size dmh) ltac:(lia)) as Hdm.
  pose proof (Z.mod_pos_bound p (zone_size dmh) Hs) as Hm.
  assert (Hq : 0 <= p / zone_size dmh < nr_zones dmh).
  { split; [apply Z.div_pos; lia | apply Z.div_lt_upper_bound; lia]. }
  repeat split; try lia.
  unfold npo2_zone_no, div64_u64. apply u32_small. lia.
Qed.

Lemma device_image (p : Z) :
  0 <= p < nr_zones dmh * zone_size dmh ->
  device_to_target_sect dmh p
  = p / zone_size dmh * zone_size_po2 dmh + p mod zone_size dmh
  /\ on_target dmh (device_to_target_sect dmh p)
  /\ po2_zone_no dmh (device_to_target_sect dmh p) = p / zone_size dmh
  /\ device_to_target_sect dmh p mod zone_size_po2 dmh = p mod zone_size dmh.
Proof.
  intros Hp.
  destruct (device_sector_split p Hp) as (z & off & He & Ho & Hz & Hq & Hm & _).
  destruct (device_to_target_on_device dmh Hok p ltac:(lia)) as [E _].
  pose proof (gk_diff dmh Hok) as Hd. pose proof (gk_cover dmh Hok) as Hc.
  rewrite Hq, Hm in *.
  assert (Ei : device_to_target_sect dmh p = z * zone_size_po2 dmh + off).
  { rewrite E, Hd. lia. }
  assert (Hon : on_target dmh (device_to_target_sect dmh p)).
  { rewrite Ei. unfold on_target, target_len. nia. }
  split; [exact Ei |]. split; [exact Hon |].
  destruct (po2_zone_no_on_target dmh Hok _ Hon) as [Hpz _].
  rewrite Hpz, Ei. split.
  - rewrite Z.div_add_l by lia. rewrite Z.div_small by lia. lia.
  - rewrite Z.add_comm, Z.mod_add by lia. apply Z.mod_small. lia.
Qed.

End DeviceSide.

(** X1. A sector [p] of the backing device (below
    [nr_zones * zone_size]) is translated into the logical zone of the
    same number at the same offset: the image is a sector of the logical
    device, its logical zone number is the physical zone number of [p],
    and its offset in the logical zone is the offset of [p] in the
    physical zone, hence below [zone_size]: the image is never an emulated
    sector. *)
Theorem device_sector_same_zone (dmh : dm_po2z_target) (p : Z) :
  geometry_ok dmh ->
  0 <= p < nr_zones dmh * zone_size dmh ->
  device_to_target_sect dmh p
  = npo2_zone_no dmh p * zone_size_po2 dmh + p mod zone_size dmh
  /\ on_target dmh (device_to_target_sect dmh p)
  /\ po2_zone_no dmh (device_to_target_sect dmh p) = npo2_zone_no dmh p
  /\ device_to_target_sect dmh p mod zone_size_po2 dmh < zone_size dmh.
Proof.
  intros Hok Hp.
  destruct (device_image dmh Hok p Hp) as (E & Hon & Hz & Hm).
  destruct (device_sector_split dmh Hok p Hp)
    as (z & off & _ & Ho & _ & Hq & Hmo & Hn).
  rewrite Hn, <- Hq. repeat split; try assumption; try apply Hon.
  rewrite Hm, Hmo. lia.
Qed.

Lemma device_sector_same_zone_witness :
  geometry_ok geo12
  /\ 0 <= 29 < nr_zones geo12 * zone_size geo12
  /\ device_to_target_sect geo12 29
     = npo2_zone_no geo12 29 * zone_size_po2 geo12 + 29 mod zone_size geo12
  /\ on_target geo12 (device_to_target_sect geo12 29)
  /\ po2_zone_no geo12 (device_to_target_sect geo12 29) = npo2_zone_no geo12 29
  /\ device_to_target_sect geo12 29 mod zone_size_po2 geo12 < zone_size geo12.
Proof.
  assert (H1 : geometry_ok geo12) by (constructor; cbn; lia).
  assert (H2 : 0 <= 29 < nr_zones geo12 * zone_size geo12) by (cbn; lia).
  exact (conj H1 (conj H2 (device_sector_same_zone geo12 29 H1 H2))).
Defined.

(** X2. The round trip from the device: every sector [p] of the backing
    device satisfies
    [target_to_device_sect (device_to_target_sect p) = p], so each
    physical sector is the image of exactly the logical sector that
    [device_to_target_sect] names. *)
Theorem device_round_trip (dmh : dm_po2z_target) (p : Z) :
  geometry_ok dmh ->
  0 <= p < nr_zones dmh * zone_size dmh ->
  target_to_device_sect dmh (device_to_target_sect dmh p) = p.
Proof.
  intros Hok Hp.
  destruct (device_image dmh Hok p Hp) as (E & Hon & Hz & Hm).
  destruct (device_sector_split dmh Hok p Hp)
    as (z & off & He & Ho & _ & Hq & Hmo & _).
  destruct (backed_sector_image dmh Hok _ Hon ltac:(lia)) as [Ei _].
  rewrite Ei, Hz, Hm, Hq, Hmo. lia.
Qed.

Lemma device_round_trip_witness :
  geometry_ok geo12
  /\ 0 <= 119 < nr_zones geo12 * zone_size geo12
  /\ target_to_device_sect geo12 (device_to_target_sect geo12 119) = 119.
Proof.
  assert (H1 : geometry_ok geo12) by (constructor; cbn; lia).
  assert (H2 : 0 <= 119 < nr_zones geo12 * zone_size geo12) by (cbn; lia).
  exact (conj H1 (conj H2 (device_round_trip geo12 119 H1 H2))).
Defined.

(** X3. Both transforms keep the order of sectors: two sectors of the
    backing device are translated in their order, and two physically
    backed sectors of the logical device are remapped in their order. *)
Theorem transforms_keep_order (dmh : dm_po2z_target) :
  geometry_ok dmh ->
  (forall p q,
      0 <= p -> p < q -> q < nr_zones dmh * zone_size dmh ->
      device_to_target_sect dmh p < device_to_target_sect dmh q)
  /\ (forall s t,
        on_target dmh s -> on_target dmh t ->
        s mod zone_size_po2 dmh < zone_size dmh ->
        t mod zone_size_po2 dmh < zone_size dmh ->
        s < t ->
        target_to_device_sect dmh s < target_to_device_sect dmh t).
Proof.
  intros Hok. pose proof (gk_size_pos dmh Hok) as Hs.
  pose proof (po2_pos dmh Hok) as Hpp. pose proof (gk_cover dmh Hok) as Hc.
  split.
  - intros p q Hp Hpq Hq.
    destruct (device_image dmh Hok p ltac:(lia)) as (Ep & _).
    destruct (device_image dmh Hok q ltac:(lia)) as (Eq & _).
    destruct (device_sector_split dmh Hok p ltac:(lia))
      as (zp & op & Hep & Hop & _ & Hqp & Hmp & _).
    destruct (device_sector_split dmh Hok q ltac:(lia))
      as (zq & oq & Heq & Hoq & _ & Hqq & Hmq & _).
    rewrite Ep, Eq, Hqp, Hqq, Hmp, Hmq.
    assert (Hz : zp <= zq) by nia.
    destruct (Z.eq_dec zp zq) as [-> | Hne]; [lia | nia].
  - intros s t Hson Hton Hsb Htb Hst.
    destruct (backed_sector_image dmh Hok s Hson Hsb) as [Es _].
    destruct (backed_sector_image dmh Hok t Hton Htb) as [Et _].
    destruct (sector_split dmh Hok s Hson) as (zs' & os & Hes & Hos & _ & Hzs & Hms).
    destruct (sector_split dmh Hok t Hton) as (zt & ot & Het & Hot & _ & Hzt & Hmt).
    rewrite Es, Et, Hzs, Hzt, Hms, Hmt. rewrite Hms in Hsb. rewrite Hmt in Htb.
    assert (Hz : zs' <= zt) by nia.
    destruct (Z.eq_dec zs' zt) as [-> | Hne]; [lia | nia].
Qed.

Lemma transforms_keep_order_witness :
  geometry_ok geo12
  /\ device_to_target_sect geo12 11 < device_to_target_sect geo12 12
  /\ target_to_device_sect geo12 11 < target_to_device_sect geo12 16.
Proof.
  assert (H1 : geometry_ok geo12) by (constructor; cbn; lia).
  destruct (transforms_keep_order geo12 H1) as [Hd Ht].
  split; [exact H1 |]. split.
  - apply Hd; cbn; lia.
  - apply Ht; unfold on_target, target_len; cbn; lia.
Defined.

(** ** Routing: where requests land and what is left alone *)

(** X4. A request with at least one sector that ends at or before the
    boundary of its zone is sent to the device inside one physical zone:
    the remapped start lies in the physical zone whose number is the
    logical zone number of the request, and start plus length does not
    exceed the end of that physical zone nor the extent
    [nr_zones * zone_size] of the backing device. *)
Theorem remapped_request_in_physical_zone (dmh : dm_po2z_target) (b : bio) :
  geometry_ok dmh ->
  on_target dmh (bi_sector b) ->
  0 <= bi_size b < 2 ^ 32 ->
  bio_sectors b <> 0 ->
  bi_sector b + bio_sectors b <= boundary dmh (bi_sector b) ->
  exists b',
    dm_po2z_map dmh b = (DM_MAPIO_REMAPPED, b')
    /\ po2_zone_no dmh (bi_sector b) * zone_size dmh <= bi_sector b'
    /\ bi_sector b' + bio_sectors b'
       <= (po2_zone_no dmh (bi_sector b) + 1) * zone_size dmh
    /\ bi_sector b' + bio_sectors b' <= nr_zones dmh * zone_size dmh
    /\ npo2_zone_no dmh (bi_sector b') = po2_zone_no dmh (bi_sector b).
Proof.
  intros Hok Hs Hsz Hn Hle.
  pose proof (bio_sectors_range b Hsz) as Hr.
  destruct (sector_split dmh Hok _ Hs) as (z & off & He & Ho & Hz & Hzn & Hm).
  pose proof (gk_size_pos dmh Hok) as Hp.
  assert (Hb : bi_sector b mod zone_size_po2 dmh < zone_size dmh).
  { rewrite Hm. unfold boundary in Hle. rewrite Hzn in Hle. lia. }
  destruct (backed_sector_image dmh Hok _ Hs Hb) as [Ei En].
  eexists. split; [apply (map_backed dmh Hok b Hs Hsz (or_introl Hn) Hle) |].
  cbn [bi_sector set_bi_sector].
  replace (bio_sectors (set_bi_sector (bio_set_dev b (dev dmh))
             (target_to_device_sect dmh (bi_sector b))))
    with (bio_sectors b) by reflexivity.
  unfold boundary in Hle. rewrite En, Ei, Hzn, Hm in *.
  repeat split; nia.
Qed.

Lemma remapped_request_in_physical_zone_witness :
  let b := mk_req REQ_OP_WRITE 20 8 in
  geometry_ok geo12
  /\ on_target geo12 (bi_sector b)
  /\ bi_sector b + bio_sectors b <= boundary geo12 (bi_sector b)
  /\ exists b',
       dm_po2z_map geo12 b = (DM_MAPIO_REMAPPED, b')
       /\ po2_zone_no geo12 (bi_sector b) * zone_size geo12 <= bi_sector b'
       /\ bi_sector b' + bio_sectors b'
          <= (po2_zone_no geo12 (bi_sector b) + 1) * zone_size geo12
       /\ bi_sector b' + bio_sectors b' <= nr_zones geo12 * zone_size geo12
       /\ npo2_zone_no geo12 (bi_sector b') = po2_zone_no geo12 (bi_sector b).
Proof.
  intros b.
  assert (H1 : geometry_ok geo12) by (constructor; cbn; lia).
  assert (H2 : on_target geo12 (bi_sector b))
    by (unfold on_target, target_len; cbn; lia).
  assert (H3 : 0 <= bi_size b < 2 ^ 32) by (cbn; lia).
  assert (H4 : bio_sectors b <> 0) by (vm_compute; discriminate).
  assert (H5 : bi_sector b + bio_sectors b <= boundary geo12 (bi_sector b))
    by (vm_compute; discriminate).
  exact (conj H1 (conj H2 (conj H5
           (remapped_request_in_physical_zone geo12 b H1 H2 H3 H4 H5)))).
Defined.

(** X5. The accepted part of a split read ends exactly where its physical
    zone ends: for a read on the logical device that starts before the
    boundary of its zone and runs past it, the remapped start plus the
    accepted length is [(zone + 1) * zone_size]. *)
Theorem split_prefix_ends_at_zone_end (dmh : dm_po2z_target) (b : bio) :
  geometry_ok dmh ->
  request_on_target dmh b ->
  bi_op b = REQ_OP_READ ->
  bi_sector b < boundary dmh (bi_sector b) ->
  boundary dmh (bi_sector b) < bi_sector b + bio_sectors b ->
  exists b1,
    dm_po2z_map dmh b = (DM_MAPIO_REMAPPED, b1)
    /\ bio_sectors b1 = boundary dmh (bi_sector b) - bi_sector b
    /\ bi_sector b1 + bio_sectors b1
       = (po2_zone_no dmh (bi_sector b) + 1) * zone_size dmh
    /\ bi_data b1 = bi_data b.
Proof.
  intros Hok Hr Hop Hlt Hgt.
  pose proof Hr as (Hs & Hsz & He).
  pose proof (bio_sectors_range b Hsz) as Hn.
  destruct (sector_split dmh Hok _ Hs) as (z & off & Heq & Ho & Hz & Hzn & Hm).
  destruct (accepted_and_remainder dmh b (boundary dmh (bi_sector b) - bi_sector b)
              (target_to_device_sect dmh (bi_sector b)) Hsz ltac:(lia))
    as (Hs1 & _).
  assert (Hb : bi_sector b mod zone_size_po2 dmh < zone_size dmh).
  { rewrite Hm. unfold boundary in Hlt. rewrite Hzn in Hlt. lia. }
  destruct (backed_sector_image dmh Hok _ Hs Hb) as [Ei _].
  eexists. split; [apply (map_read_split dmh Hok b Hr Hop Hlt Hgt) |].
  split; [exact Hs1 |]. split; [| reflexivity].
  rewrite Hs1. cbn [bi_sector set_bi_sector]. rewrite Ei.
  unfold boundary. rewrite Hzn, Hm. lia.
Qed.

Lemma split_prefix_ends_at_zone_end_witness :
  let b := mk_req REQ_OP_READ 26 4 in
  geometry_ok geo12
  /\ request_on_target geo12 b
  /\ bi_sector b < boundary geo12 (bi_sector b)
  /\ boundary geo12 (bi_sector b) < bi_sector b + bio_sectors b
  /\ exists b1,
       dm_po2z_map geo12 b = (DM_MAPIO_REMAPPED, b1)
       /\ bio_sectors b1 = boundary geo12 (bi_sector b) - bi_sector b
       /\ bi_sector b1 + bio_sectors b1
          = (po2_zone_no geo12 (bi_sector b) + 1) * zone_size geo12
       /\ bi_data b1 = bi_data b.
Proof.
  intros b.
  assert (H1 : geometry_ok geo12) by (constructor; cbn; lia).
  assert (H2 : request_on_target geo12 b).
  { unfold request_on_target, on_target, target_len.
    repeat split; vm_compute; congruence. }
  assert (H3 : bi_op b = REQ_OP_READ) by reflexivity.
  assert (H4 : bi_sector b < boundary geo12 (bi_sector b))
    by (vm_compute; reflexivity).
  assert (H5 : boundary geo12 (bi_sector b) < bi_sector b + bio_sectors b)
    by (vm_compute; reflexivity).
  exact (conj H1 (conj H2 (conj H4 (conj H5
           (split_prefix_ends_at_zone_end geo12 b H1 H2 H3 H4 H5))))).
Defined.

(** X6. A read on the logical device with at least one sector that starts
    in the emulated part of its zone (at or past the boundary), whatever
    its length, is completed by the target itself: the answer is
    [DM_MAPIO_SUBMITTED], the request is ended, its whole payload is zero
    and sector and length are as submitted. *)
Theorem read_in_emulated_area_zero_filled (dmh : dm_po2z_target) (b : bio) :
  geometry_ok dmh ->
  request_on_target dmh b ->
  payload_sized b ->
  bi_op b = REQ_OP_READ ->
  bio_sectors b <> 0 ->
  boundary dmh (bi_sector b) <= bi_sector b ->
  exists r,
    dm_po2z_map dmh b = (DM_MAPIO_SUBMITTED, r)
    /\ bi_ended r = true
    /\ bi_data r = repeat Byte.x00 (Z.to_nat (bi_size b))
    /\ bi_sector r = bi_sector b
    /\ bi_size r = bi_size b.
Proof.
  intros Hok Hr Hp Hop Hn Hge.
  eexists. split; [apply (map_read_emulated dmh Hok b Hr Hop Hn Hge) |].
  split; [reflexivity |].
  split; [| split; reflexivity].
  cbn [bi_data bio_endio].
  exact (zero_fill_payload (bio_set_dev b (dev dmh)) Hp).
Qed.

Lemma read_in_emulated_area_zero_filled_witness :
  let b := mk_req REQ_OP_READ 14 2 in
  geometry_ok geo12
  /\ request_on_target geo12 b
  /\ payload_sized b
  /\ bio_sectors b <> 0
  /\ boundary geo12 (bi_sector b) <= bi_sector b
  /\ exists r,
       dm_po2z_map geo12 b = (DM_MAPIO_SUBMITTED, r)
       /\ bi_ended r = true
       /\ bi_data r = repeat Byte.x00 (Z.to_nat (bi_size b))
       /\ bi_sector r = bi_sector b
       /\ bi_size r = bi_size b.
Proof.
  intros b.
  assert (H1 : geometry_ok geo12) by (constructor; cbn; lia).
  assert (H2 : request_on_target geo12 b).
  { unfold request_on_target, on_target, target_len.
    repeat split; vm_compute; congruence. }
  assert (H3 : payload_sized b) by (vm_compute; reflexivity).
  assert (H4 : bi_op b = REQ_OP_READ) by reflexivity.
  assert (H5 : bio_sectors b <> 0) by (vm_compute; discriminate).
  assert (H6 : boundary geo12 (bi_sector b) <= bi_sector b)
    by (vm_compute; discriminate).
  exact (conj H1 (conj H2 (conj H3 (conj H5 (conj H6
           (read_in_emulated_area_zero_filled geo12 b H1 H2 H3 H4 H5 H6)))))).
Defined.

(** X7. Whatever the geometry and the sector, a request that is not a read
    leaves the routing with its payload, its length, its operation and
    its completion flag as submitted, bound to the backing device, and it
    is never answered [DM_MAPIO_SUBMITTED]: only reads are completed by
    the target, and only their payload is ever written. *)
Theorem non_read_payload_untouched (dmh : dm_po2z_target) (b : bio) :
  bi_op b <> REQ_OP_READ ->
  bi_data (snd (dm_po2z_map dmh b)) = bi_data b
  /\ bi_size (snd (dm_po2z_map dmh b)) = bi_size b
  /\ bi_op (snd (dm_po2z_map dmh b)) = bi_op b
  /\ bi_ended (snd (dm_po2z_map dmh b)) = bi_ended b
  /\ bi_bdev (snd (dm_po2z_map dmh b)) = Some (dev dmh)
  /\ fst (dm_po2z_map dmh b) <> DM_MAPIO_SUBMITTED.
Proof.
  intros Hop. unfold dm_po2z_map.
  cbn [bi_op bio_set_dev].
  destruct (req_op_eqb_spec (bi_op b) REQ_OP_READ) as [E | _];
    [contradiction |].
  destruct (negb (bio_sectors (bio_set_dev b (dev dmh)) =? 0)
            || op_is_zone_mgmt (bi_op b));
    [destruct (negb (bio_across_emulated_zone_area dmh
                       (bio_set_dev b (dev dmh)))) |];
    cbn; repeat split; discriminate.
Qed.

Lemma non_read_payload_untouched_witness :
  let b := mk_req REQ_OP_WRITE 8 8 in
  bi_op b <> REQ_OP_READ
  /\ bi_data (snd (dm_po2z_map geo12 b)) = bi_data b
  /\ bi_size (snd (dm_po2z_map geo12 b)) = bi_size b
  /\ bi_op (snd (dm_po2z_map geo12 b)) = bi_op b
  /\ bi_ended (snd (dm_po2z_map geo12 b)) = bi_ended b
  /\ bi_bdev (snd (dm_po2z_map geo12 b)) = Some (dev geo12)
  /\ fst (dm_po2z_map geo12 b) <> DM_MAPIO_SUBMITTED.
Proof.
  intros b.
  assert (H1 : bi_op b <> REQ_OP_READ) by discriminate.
  exact (conj H1 (non_read_payload_untouched geo12 b H1)).
Defined.

(** X8. The answers of the routing, for a request on the logical device.
    It is rejected exactly when it carries sectors or is a
    zone-management command, is not a read and runs past the boundary of
    its zone; it is completed by the target exactly when it is a read
    with at least one sector that starts at or past the boundary; in
    every other case it is remapped.  The routing never asks for a
    requeue. *)
Theorem map_answers (dmh : dm_po2z_target) (b : bio) :
  geometry_ok dmh ->
  request_on_target dmh b ->
  (fst (dm_po2z_map dmh b) = DM_MAPIO_KILL
   <-> (bio_sectors b <> 0 \/ op_is_zone_mgmt (bi_op b) = true)
       /\ bi_op b <> REQ_OP_READ
       /\ boundary dmh (bi_sector b) < bi_sector b + bio_sectors b)
  /\ (fst (dm_po2z_map dmh b) = DM_MAPIO_SUBMITTED
      <-> bi_op b = REQ_OP_READ
          /\ bio_sectors b <> 0
          /\ boundary dmh (bi_sector b) <= bi_sector b)
  /\ (fst (dm_po2z_map dmh b) = DM_MAPIO_REMAPPED
      \/ fst (dm_po2z_map dmh b) = DM_MAPIO_SUBMITTED
      \/ fst (dm_po2z_map dmh b) = DM_MAPIO_KILL).
Proof.
  intros Hok Hr. pose proof Hr as (Hs & Hsz & He).
  pose proof (bio_sectors_range b Hsz) as Hn.
  destruct (Z.eq_dec (bio_sectors b) 0) as [Hz | Hnz];
    [destruct (op_is_zone_mgmt (bi_op b)) eqn:Hm |].
  - (* zone management without sectors *)
    assert (Hnr : bi_op b <> REQ_OP_READ)
      by (intros E; rewrite E in Hm; discriminate).
    destruct (Z.le_gt_cases (bi_sector b + bio_sectors b)
                (boundary dmh (bi_sector b))) as [Hle | Hgt].
    + rewrite (map_backed dmh Hok b Hs Hsz (or_intror Hm) Hle). cbn [fst].
      repeat split; intros; try discriminate; try tauto; lia.
    + rewrite (map_kill dmh Hok b Hr (or_intror Hm) Hnr Hgt). cbn [fst].
      repeat split; intros; try discriminate; try tauto; lia.
  - (* no sectors, no zone management *)
    rewrite (map_empty dmh b Hz Hm). cbn [fst].
    repeat split; intros; try discriminate; try tauto;
      try (exfalso; intuition congruence).
  - (* at least one sector *)
    destruct (Z.le_gt_cases (bi_sector b + bio_sectors b)
                (boundary dmh (bi_sector b))) as [Hle | Hgt].
    + rewrite (map_backed dmh Hok b Hs Hsz (or_introl Hnz) Hle). cbn [fst].
      repeat split; intros; try discriminate; try tauto; lia.
    + destruct (req_op_eqb_spec (bi_op b) REQ_OP_READ) as [Hop | Hop].
      * destruct (Z.lt_ge_cases (bi_sector b) (boundary dmh (bi_sector b)))
          as [Hlt | Hge].
        -- rewrite (map_read_split dmh Hok b Hr Hop Hlt Hgt). cbn [fst].
           repeat split; intros; try discriminate; try tauto; lia.
        -- rewrite (map_read_emulated dmh Hok b Hr Hop Hnz Hge). cbn [fst].
           repeat split; intros; try discriminate; try tauto.
      * rewrite (map_kill dmh Hok b Hr (or_introl Hnz) Hop Hgt). cbn [fst].
        repeat split; intros; try discriminate; try tauto.
Qed.

Lemma map_answers_witness :
  let b := mk_req REQ_OP_WRITE 8 8 in
  geometry_ok geo12
  /\ request_on_target geo12 b
  /\ fst (dm_po2z_map geo12 b) = DM_MAPIO_KILL.
Proof.
  intros b.
  assert (H1 : geometry_ok geo12) by (constructor; cbn; lia).
  assert (H2 : request_on_target geo12 b).
  { unfold request_on_target, on_target, target_len.
    repeat split; vm_compute; congruence. }
  split; [exact H1 |]. split; [exact H2 |].
  destruct (map_answers geo12 b H1 H2) as [[_ Hk] _].
  apply Hk. split; [left; vm_compute; discriminate |].
  split; [discriminate | vm_compute; reflexivity].
Defined.

(** X9. A zone-management command without sectors that names the start of
    logical zone [j] of the device is remapped to the start of physical
    zone [j], sector [j * zone_size]. *)
Theorem zone_mgmt_reaches_zone_start (dmh : dm_po2z_target) (b : bio) (j : Z) :
  geometry_ok dmh ->
  op_is_zone_mgmt (bi_op b) = true ->
  0 <= bi_size b < 2 ^ 32 ->
  bio_sectors b = 0 ->
  0 <= j < nr_zones dmh ->
  bi_sector b = j * zone_size_po2 dmh ->
  exists b',
    dm_po2z_map dmh b = (DM_MAPIO_REMAPPED, b')
    /\ bi_sector b' = j * zone_size dmh
    /\ bi_op b' = bi_op b.
Proof.
  intros Hok Hm Hsz Hn Hj Hsec.
  pose proof (po2_pos dmh Hok) as Hpp. pose proof (gk_size_pos dmh Hok) as Hp.
  assert (Hs : on_target dmh (bi_sector b)).
  { rewrite Hsec. unfold on_target, target_len. nia. }
  destruct (po2_zone_no_on_target dmh Hok _ Hs) as [Hq _].
  rewrite Hsec, Z.div_mul in Hq by lia.
  assert (Hmod : bi_sector b mod zone_size_po2 dmh = 0)
    by (rewrite Hsec; apply Z.mod_mul; lia).
  assert (Hle : bi_sector b + bio_sectors b <= boundary dmh (bi_sector b)).
  { unfold boundary. rewrite Hsec at 2. rewrite Hq, Hn, Hsec. lia. }
  destruct (backed_sector_image dmh Hok _ Hs ltac:(lia)) as [Ei _].
  eexists. split; [apply (map_backed dmh Hok b Hs Hsz (or_intror Hm) Hle) |].
  split; [| reflexivity].
  cbn [bi_sector set_bi_sector]. rewrite Ei, Hmod.
  rewrite Hsec at 1. rewrite Hq. lia.
Qed.

Lemma zone_mgmt_reaches_zone_start_witness :
  let b := mk_req REQ_OP_ZONE_RESET 48 0 in
  geometry_ok geo12
  /\ op_is_zone_mgmt (bi_op b) = true
  /\ bio_sectors b = 0
  /\ 0 <= 3 < nr_zones geo12
  /\ bi_sector b = 3 * zone_size_po2 geo12
  /\ exists b',
       dm_po2z_map geo12 b = (DM_MAPIO_REMAPPED, b')
       /\ bi_sector b' = 3 * zone_size geo12
       /\ bi_op b' = bi_op b.
Proof.
  intros b.
  assert (H1 : geometry_ok geo12) by (constructor; cbn; lia).
  assert (H2 : op_is_zone_mgmt (bi_op b) = true) by reflexivity.
  assert (H3 : 0 <= bi_size b < 2 ^ 32) by (cbn; lia).
  assert (H4 : bio_sectors b = 0) by (vm_compute; reflexivity).
  assert (H5 : 0 <= 3 < nr_zones geo12) by (cbn; lia).
  assert (H6 : bi_sector b = 3 * zone_size_po2 geo12) by reflexivity.
  exact (conj H1 (conj H2 (conj H4 (conj H5 (conj H6
           (zone_mgmt_reaches_zone_start geo12 b 3 H1 H2 H3 H4 H5 H6)))))).
Defined.

(** X10. The boundary test is strict.  A zone-management command without
    sectors placed exactly on the boundary of logical zone [j], its first
    emulated sector, is not rejected: it is remapped and leaves with
    sector [(j + 1) * zone_size], the sector that follows physical zone
    [j]; one sector further it is rejected. *)
Theorem zone_mgmt_on_boundary (dmh : dm_po2z_target) (b : bio) (j : Z) :
  geometry_ok dmh ->
  zone_size dmh < zone_size_po2 dmh ->
  op_is_zone_mgmt (bi_op b) = true ->
  0 <= bi_size b < 2 ^ 32 ->
  bio_sectors b = 0 ->
  0 <= j < nr_zones dmh ->
  bi_sector b = j * zone_size_po2 dmh + zone_size dmh ->
  (exists b',
      dm_po2z_map dmh b = (DM_MAPIO_REMAPPED, b')
      /\ bi_sector b' = (j + 1) * zone_size dmh)
  /\ (zone_size dmh + 1 < zone_size_po2 dmh ->
      fst (dm_po2z_map dmh (set_bi_sector b (bi_sector b + 1)))
      = DM_MAPIO_KILL).
Proof.
  intros Hok Hlt Hm Hsz Hn Hj Hsec.
  pose proof (po2_pos dmh Hok) as Hpp. pose proof (gk_size_pos dmh Hok) as Hp.
  pose proof (gk_diff dmh Hok) as Hd.
  assert (Hnr : bi_op b <> REQ_OP_READ)
    by (intros E; rewrite E in Hm; discriminate).
  split.
  - assert (Hs : on_target dmh (bi_sector b)).
    { rewrite Hsec. unfold on_target, target_len. nia. }
    destruct (po2_zone_no_on_target dmh Hok _ Hs) as [Hq _].
    assert (Hdiv : bi_sector b / zone_size_po2 dmh = j).
    { rewrite Hsec, Z.div_add_l by lia. rewrite Z.div_small by lia. lia. }
    rewrite Hdiv in Hq.
    assert (Hle : bi_sector b + bio_sectors b <= boundary dmh (bi_sector b)).
    { unfold boundary. rewrite Hq, Hn. lia. }
    destruct (target_to_device_on_target dmh Hok _ Hs) as [Et _].
    eexists. split; [apply (map_backed dmh Hok b Hs Hsz (or_intror Hm) Hle) |].
    cbn [bi_sector set_bi_sector]. rewrite Et, Hq, Hd. lia.
  - intros Hroom.
    set (b2 := set_bi_sector b (bi_sector b + 1)).
    assert (Hs : on_target dmh (bi_sector b2)).
    { cbn. rewrite Hsec. unfold on_target, target_len. nia. }
    destruct (po2_zone_no_on_target dmh Hok _ Hs) as [Hq _].
    assert (Hdiv : bi_sector b2 / zone_size_po2 dmh = j).
    { cbn. rewrite Hsec.
      replace (j * zone_size_po2 dmh + zone_size dmh + 1)
        with (j * zone_size_po2 dmh + (zone_size dmh + 1)) by lia.
      rewrite Z.div_add_l by lia. rewrite Z.div_small by lia. lia. }
    rewrite Hdiv in Hq.
    assert (Hn2 : bio_sectors b2 = 0) by exact Hn.
    assert (Hr : request_on_target dmh b2).
    { split; [exact Hs |]. split; [exact Hsz |].
      rewrite Hn2. destruct Hs. lia. }
    rewrite (map_kill dmh Hok b2 Hr (or_intror Hm) Hnr); [reflexivity |].
    unfold boundary. rewrite Hq, Hn2. cbn. lia.
Qed.

Lemma zone_mgmt_on_boundary_witness :
  let b := mk_req REQ_OP_ZONE_FINISH 12 0 in
  geometry_ok geo12
  /\ zone_size geo12 < zone_size_po2 geo12
  /\ op_is_zone_mgmt (bi_op b) = true
  /\ bio_sectors b = 0
  /\ bi_sector b = 0 * zone_size_po2 geo12 + zone_size geo12
  /\ (exists b',
         dm_po2z_map geo12 b = (DM_MAPIO_REMAPPED, b')
         /\ bi_sector b' = (0 + 1) * zone_size geo12)
  /\ (zone_size geo12 + 1 < zone_size_po2 geo12 ->
      fst (dm_po2z_map geo12 (set_bi_sector b (bi_sector b + 1)))
      = DM_MAPIO_KILL).
Proof.
  intros b.
  assert (H1 : geometry_ok geo12) by (constructor; cbn; lia).
  assert (H2 : zone_size geo12 < zone_size_po2 geo12) by (cbn; lia).
  assert (H3 : op_is_zone_mgmt (bi_op b) = true) by reflexivity.
  assert (H4 : 0 <= bi_size b < 2 ^ 32) by (cbn; lia).
  assert (H5 : bio_sectors b = 0) by (vm_compute; reflexivity).
  assert (H6 : 0 <= 0 < nr_zones geo12) by (cbn; lia).
  assert (H7 : bi_sector b = 0 * zone_size_po2 geo12 + zone_size geo12)
    by reflexivity.
  exact (conj H1 (conj H2 (conj H3 (conj H5 (conj H7
           (zone_mgmt_on_boundary geo12 b 0 H1 H2 H3 H4 H5 H6 H7)))))).
Defined.

(** X19. The routing writes into a payload and completes a request only
    when it answers [DM_MAPIO_SUBMITTED]: under every other answer, for
    any geometry and any request, reads included, the payload and the
    completion flag are as submitted. *)
Theorem payload_changes_only_when_submitted (dmh : dm_po2z_target) (b : bio) :
  fst (dm_po2z_map dmh b) <> DM_MAPIO_SUBMITTED ->
  bi_data (snd (dm_po2z_map dmh b)) = bi_data b
  /\ bi_ended (snd (dm_po2z_map dmh b)) = bi_ended b
  /\ bi_op (snd (dm_po2z_map dmh b)) = bi_op b
  /\ bi_status (snd (dm_po2z_map dmh b)) = bi_status b.
Proof.
  unfold dm_po2z_map, dm_po2z_map_read_emulated_area. cbv zeta.
  cbn [bi_op bi_sector bio_set_dev].
  destruct (negb (bio_sectors (bio_set_dev b (dev dmh)) =? 0)
            || op_is_zone_mgmt (bi_op b));
    [destruct (negb (bio_across_emulated_zone_area dmh
                       (bio_set_dev b (dev dmh))));
     [| destruct (req_op_eqb (bi_op b) REQ_OP_READ);
        [destruct (u64 (bi_sector b
                        - u64 (po2_zone_no dmh (bi_sector b)
                               * zone_size_po2 dmh)) <? zone_size dmh) |]] |];
    cbn; intros H; try (exfalso; apply H; reflexivity); repeat split.
Qed.

Lemma payload_changes_only_when_submitted_witness :
  let b := mk_req REQ_OP_READ 10 10 in
  fst (dm_po2z_map geo12 b) <> DM_MAPIO_SUBMITTED
  /\ bi_data (snd (dm_po2z_map geo12 b)) = bi_data b
  /\ bi_ended (snd (dm_po2z_map geo12 b)) = bi_ended b
  /\ bi_op (snd (dm_po2z_map geo12 b)) = bi_op b
  /\ bi_status (snd (dm_po2z_map geo12 b)) = bi_status b.
Proof.
  intros b.
  assert (H1 : fst (dm_po2z_map geo12 b) <> DM_MAPIO_SUBMITTED)
    by (vm_compute; discriminate).
  exact (conj H1 (payload_changes_only_when_submitted geo12 b H1)).
Defined.

(** ** Routing and completion together *)

(** X11. A zone append through routing and completion.  An append with at
    least one sector that ends at or before the boundary of its zone is
    remapped; when the device then reports success with a landing sector
    [p] inside the physical zone the request was sent to, the completion
    hook hands back a sector of the logical zone the request addressed, at
    the offset the device chose, which is a physically backed sector; a
    landing at the remapped start is reported as the sector submitted. *)
Theorem append_reported_in_logical_zone (dmh : dm_po2z_target) (b : bio)
    (p error : Z) :
  geometry_ok dmh ->
  bi_op b = REQ_OP_ZONE_APPEND ->
  on_target dmh (bi_sector b) ->
  0 <= bi_size b < 2 ^ 32 ->
  bio_sectors b <> 0 ->
  bi_sector b + bio_sectors b <= boundary dmh (bi_sector b) ->
  po2_zone_no dmh (bi_sector b) * zone_size dmh <= p
  < (po2_zone_no dmh (bi_sector b) + 1) * zone_size dmh ->
  exists b1 b2,
    dm_po2z_map dmh b = (DM_MAPIO_REMAPPED, b1)
    /\ dm_po2z_end_io dmh
         (mk_bio (bi_bdev b1) (bi_op b1) BLK_STS_OK p (bi_size b1)
            (bi_data b1) (bi_ended b1)) error
       = (DM_ENDIO_DONE, b2, error)
    /\ bi_sector b2
       = po2_zone_no dmh (bi_sector b) * zone_size_po2 dmh
         + (p - po2_zone_no dmh (bi_sector b) * zone_size dmh)
    /\ po2_zone_no dmh (bi_sector b2) = po2_zone_no dmh (bi_sector b)
    /\ bi_sector b2 mod zone_size_po2 dmh < zone_size dmh
    /\ (p = bi_sector b1 -> bi_sector b2 = bi_sector b).
Proof.
  intros Hok Hop Hs Hsz Hn Hle Hp.
  pose proof (gk_size_pos dmh Hok) as Hzs.
  destruct (sector_split dmh Hok _ Hs) as (z & off & He & Ho & Hz & Hzn & Hm).
  rewrite Hzn in *.
  assert (Hb : bi_sector b mod zone_size_po2 dmh < zone_size dmh).
  { rewrite Hm. unfold boundary in Hle. rewrite Hzn in Hle.
    pose proof (bio_sectors_range b Hsz). lia. }
  destruct (backed_sector_image dmh Hok _ Hs Hb) as [Ei _].
  assert (Hpr : 0 <= p < nr_zones dmh * zone_size dmh) by nia.
  destruct (device_image dmh Hok p Hpr) as (Ed & Hon & Hpz & Hpm).
  assert (Hq : p / zone_size dmh = z).
  { replace p with (z * zone_size dmh + (p - z * zone_size dmh)) by lia.
    rewrite Z.div_add_l by lia. rewrite Z.div_small by lia. lia. }
  assert (Hr : p mod zone_size dmh = p - z * zone_size dmh).
  { pose proof (Z.div_mod p (zone_size dmh) ltac:(lia)) as Hdm.
    rewrite Hq in Hdm. lia. }
  rewrite Hq, Hr in *.
  eexists. eexists.
  split; [apply (map_backed dmh Hok b Hs Hsz (or_introl Hn) Hle) |].
  cbn [bi_bdev bi_op bi_size bi_data bi_ended bi_sector set_bi_sector
       bio_set_dev].
  split.
  - unfold dm_po2z_end_io. cbn [bi_status bi_op bi_sector].
    rewrite Hop. cbn [req_op_eqb BLK_STS_OK Z.eqb andb]. reflexivity.
  - cbn [bi_sector set_bi_sector].
    split; [exact Ed |]. split; [exact Hpz |]. split; [lia |].
    intros Hland. rewrite Ed, Hland, Ei, Hzn, Hm. lia.
Qed.

Lemma append_reported_in_logical_zone_witness :
  let b := mk_req REQ_OP_ZONE_APPEND 32 2 in
  geometry_ok geo12
  /\ on_target geo12 (bi_sector b)
  /\ bio_sectors b <> 0
  /\ bi_sector b + bio_sectors b <= boundary geo12 (bi_sector b)
  /\ (po2_zone_no geo12 (bi_sector b) * zone_size geo12 <= 29
      < (po2_zone_no geo12 (bi_sector b) + 1) * zone_size geo12)
  /\ exists b1 b2,
       dm_po2z_map geo12 b = (DM_MAPIO_REMAPPED, b1)
       /\ dm_po2z_end_io geo12
            (mk_bio (bi_bdev b1) (bi_op b1) BLK_STS_OK 29 (bi_size b1)
               (bi_data b1) (bi_ended b1)) 0
          = (DM_ENDIO_DONE, b2, 0)
       /\ bi_sector b2
          = po2_zone_no geo12 (bi_sector b) * zone_size_po2 geo12
            + (29 - po2_zone_no geo12 (bi_sector b) * zone_size geo12)
       /\ po2_zone_no geo12 (bi_sector b2) = po2_zone_no geo12 (bi_sector b)
       /\ bi_sector b2 mod zone_size_po2 geo12 < zone_size geo12
       /\ (29 = bi_sector b1 -> bi_sector b2 = bi_sector b).
Proof.
  intros b.
  assert (H1 : geometry_ok geo12) by (constructor; cbn; lia).
  assert (H2 : bi_op b = REQ_OP_ZONE_APPEND) by reflexivity.
  assert (H3 : on_target geo12 (bi_sector b))
    by (unfold on_target, target_len; cbn; lia).
  assert (H4 : 0 <= bi_size b < 2 ^ 32) by (cbn; lia).
  assert (H5 : bio_sectors b <> 0) by (vm_compute; discriminate).
  assert (H6 : bi_sector b + bio_sectors b <= boundary geo12 (bi_sector b))
    by (vm_compute; discriminate).
  assert (H7 : po2_zone_no geo12 (bi_sector b) * zone_size geo12 <= 29
               < (po2_zone_no geo12 (bi_sector b) + 1) * zone_size geo12)
    by (vm_compute; split; [discriminate | reflexivity]).
  exact (conj H1 (conj H3 (conj H5 (conj H6 (conj H7
           (append_reported_in_logical_zone geo12 b 29 0
              H1 H2 H3 H4 H5 H6 H7)))))).
Defined.

(** ** Construction: refusals and the extent handed on *)

(** X12. Whenever the constructor does not get exactly one argument, its
    allocation, an opened device and a table entry that starts at 0 and
    has the length of the device's capacity, it builds nothing: begin,
    length, maximal I/O length and private data of the target are as
    before, and the return code is [-EINVAL] (argument count or partial
    mapping), [-ENOMEM] (allocation) or the code of the failed device
    lookup, which alone sets the error text. *)
Theorem ctr_refusal (ti : dm_target) (argc : Z) (kmalloc_ok : bool)
    (lookup : dm_get_device_result) :
  ~ (argc = 1 /\ kmalloc_ok = true
     /\ exists d, lookup = DevOpened d
                  /\ ti_len ti = get_capacity d /\ ti_begin ti = 0) ->
  let r := dm_po2z_ctr ti argc kmalloc_ok lookup in
  ti_private (snd r) = ti_private ti
  /\ ti_begin (snd r) = ti_begin ti
  /\ ti_len (snd r) = ti_len ti
  /\ ti_max_io_len (snd r) = ti_max_io_len ti
  /\ ((argc <> 1 /\ r = (- EINVAL, ti))
      \/ (argc = 1 /\ kmalloc_ok = false /\ r = (- ENOMEM, ti))
      \/ (argc = 1 /\ kmalloc_ok = true
          /\ exists ret, lookup = DevFailed ret /\ fst r = ret
                         /\ ti_error (snd r)
                            = Some "Device lookup failed"%string)
      \/ (argc = 1 /\ kmalloc_ok = true
          /\ (exists d, lookup = DevOpened d
                        /\ (ti_len ti <> get_capacity d \/ ti_begin ti <> 0))
          /\ r = (- EINVAL, ti))).
Proof.
  intros Hno r. subst r. unfold dm_po2z_ctr.
  destruct (Z.eqb_spec argc 1) as [Ha | Ha]; cbn [negb].
  2: { repeat split; auto. }
  destruct kmalloc_ok; cbn [negb].
  2: { repeat split; auto. }
  destruct lookup as [d | ret].
  - destruct (Z.eqb_spec (ti_len ti) (get_capacity d)) as [Hl | Hl];
      destruct (Z.eqb_spec (ti_begin ti) 0) as [Hb | Hb]; cbn [negb orb].
    + exfalso. apply Hno. repeat split; auto. exists d. auto.
    + repeat split; auto. right. right. right.
      repeat split; auto. exists d. auto.
    + repeat split; auto. right. right. right.
      repeat split; auto. exists d. auto.
    + repeat split; auto. right. right. right.
      repeat split; auto. exists d. auto.
  - cbn [snd fst ti_private ti_begin ti_len ti_max_io_len ti_error].
    repeat split; auto. right. right. left.
    repeat split; auto. exists ret. auto.
Qed.

Lemma ctr_refusal_witness :
  let ti := mk_dm_target 0 60 0 None None in
  let r := dm_po2z_ctr ti 1 true (DevOpened dev12) in
  ti_private (snd r) = ti_private ti
  /\ ti_len (snd r) = ti_len ti
  /\ fst r = - EINVAL.
Proof.
  intros ti r.
  assert (H : ~ (1 = 1 /\ true = true
                 /\ exists d, DevOpened dev12 = DevOpened d
                              /\ ti_len ti = get_capacity d
                              /\ ti_begin ti = 0)).
  { intros (_ & _ & d & Hd & Hl & _). injection Hd as <-.
    vm_compute in Hl. discriminate. }
  destruct (ctr_refusal ti 1 true (DevOpened dev12) H) as (Hp & _ & Hl & _).
  split; [exact Hp |]. split; [exact Hl |]. vm_compute. reflexivity.
Defined.

(** X13. The constructor and the device iteration together.  For a device
    within the range of the integer types and a table entry over the
    whole device, construction succeeds with a well-formed geometry over
    that device, and the iteration then reports one extent of the backing
    device, from sector 0, whose length is the capacity rounded down to a
    whole number of zones: never more than the capacity, and the capacity
    itself when it is a multiple of the zone size. *)
Theorem ctr_then_iterate_devices (A : Type) (ti : dm_target)
    (d : block_device) (fn : block_device -> Z -> Z -> A -> Z) (data : A) :
  0 < bdev_zone_sectors d <= 2 ^ 30 ->
  0 <= get_capacity d < 2 ^ 64 ->
  get_capacity d / bdev_zone_sectors d < 2 ^ 32 ->
  ti_len ti = get_capacity d ->
  ti_begin ti = 0 ->
  exists dmh ti',
    dm_po2z_ctr ti 1 true (DevOpened d) = (0, ti')
    /\ ti_private ti' = Some dmh
    /\ geometry_ok dmh
    /\ device_matches dmh
    /\ ti_len ti' = target_len dmh
    /\ dm_po2z_iterate_devices dmh fn data
       = fn d 0 (get_capacity d - get_capacity d mod bdev_zone_sectors d) data
    /\ get_capacity d - get_capacity d mod bdev_zone_sectors d
       <= get_capacity d
    /\ (get_capacity d mod bdev_zone_sectors d = 0 ->
        dm_po2z_iterate_devices dmh fn data = fn d 0 (get_capacity d) data).
Proof.
  intros Hzs Hcap Hnr Hlen Hbeg.
  assert (Hin : device_in_range d) by (repeat split; lia).
  pose proof (Z.div_mod (get_capacity d) (bdev_zone_sectors d) ltac:(lia))
    as Hdm.
  pose proof (Z.mod_pos_bound (get_capacity d) (bdev_zone_sectors d)
                ltac:(lia)) as Hm.
  assert (Hq : 0 <= get_capacity d / bdev_zone_sectors d)
    by (apply Z.div_pos; lia).
  assert (Ext : u64 (nr_zones (constructed d) * zone_size (constructed d))
                = get_capacity d - get_capacity d mod bdev_zone_sectors d).
  { unfold constructed. cbn [nr_zones zone_size].
    rewrite u64_small by nia. lia. }
  exists (constructed d). eexists.
  split; [apply (ctr_builds ti d Hin Hlen Hbeg) |].
  split; [reflexivity |].
  split; [apply constructed_geometry_ok; exact Hin |].
  split; [unfold device_matches, constructed; cbn; split; [reflexivity | nia] |].
  split; [reflexivity |].
  unfold dm_po2z_iterate_devices. rewrite Ext.
  split; [reflexivity |]. split; [lia |].
  intros H0. rewrite H0, Z.sub_0_r. reflexivity.
Qed.

Lemma ctr_then_iterate_devices_witness :
  (0 < bdev_zone_sectors dev12 <= 2 ^ 30)
  /\ (0 <= get_capacity dev12 < 2 ^ 64)
  /\ get_capacity dev12 / bdev_zone_sectors dev12 < 2 ^ 32
  /\ exists dmh ti',
       dm_po2z_ctr ti12 1 true (DevOpened dev12) = (0, ti')
       /\ ti_private ti' = Some dmh
       /\ geometry_ok dmh
       /\ dm_po2z_iterate_devices dmh (fun _ s l _ => s + l) tt
          = 0 + (get_capacity dev12
                 - get_capacity dev12 mod bdev_zone_sectors dev12).
Proof.
  assert (H1 : 0 < bdev_zone_sectors dev12 <= 2 ^ 30) by (cbn; lia).
  assert (H2 : 0 <= get_capacity dev12 < 2 ^ 64) by (cbn; lia).
  assert (H3 : get_capacity dev12 / bdev_zone_sectors dev12 < 2 ^ 32)
    by (vm_compute; reflexivity).
  split; [exact H1 |]. split; [exact H2 |]. split; [exact H3 |].
  destruct (ctr_then_iterate_devices unit ti12 dev12 (fun _ s l _ => s + l) tt
              H1 H2 H3 eq_refl eq_refl)
    as (dmh & ti' & E & Hp & Hg & _ & _ & Hi & _).
  exists dmh, ti'.
  split; [exact E |]. split; [exact Hp |]. split; [exact Hg | exact Hi].
Defined.

(** X20. The constructor and the I/O hints together.  For a device within
    the range of the integer types and a table entry over the whole
    device, the chunk size exported by the hints is the maximal I/O length
    the constructor set, both are the power-of-two zone size without
    truncation, and the length of the logical device is a whole number of
    such chunks, one per zone. *)
Theorem ctr_then_io_hints (ti : dm_target) (d : block_device)
    (chunk_sectors : Z) :
  0 < bdev_zone_sectors d <= 2 ^ 30 ->
  0 <= get_capacity d < 2 ^ 64 ->
  get_capacity d / bdev_zone_sectors d < 2 ^ 32 ->
  ti_len ti = get_capacity d ->
  ti_begin ti = 0 ->
  exists dmh ti',
    dm_po2z_ctr ti 1 true (DevOpened d) = (0, ti')
    /\ ti_private ti' = Some dmh
    /\ dm_po2z_io_hints dmh chunk_sectors = zone_size_po2 dmh
    /\ ti_max_io_len ti' = dm_po2z_io_hints dmh chunk_sectors
    /\ ti_len ti' = dm_po2z_io_hints dmh chunk_sectors * nr_zones dmh
    /\ bdev_zone_sectors d <= dm_po2z_io_hints dmh chunk_sectors.
Proof.
  intros Hzs Hcap Hnr Hlen Hbeg.
  assert (Hin : device_in_range d) by (repeat split; lia).
  pose proof (count_order_range _ Hzs) as Hr.
  pose proof (po2_covers _ Hzs) as Hc.
  assert (Hp : 0 < 2 ^ Z.log2_up (bdev_zone_sectors d) <= 2 ^ 30).
  { split; [apply pow2_pos; lia | apply Z.pow_le_mono_r; lia]. }
  assert (Eh : dm_po2z_io_hints (constructed d) chunk_sectors
               = zone_size_po2 (constructed d)).
  { unfold dm_po2z_io_hints, constructed. cbn [zone_size_po2].
    apply u32_small. lia. }
  exists (constructed d). eexists.
  split; [apply (ctr_builds ti d Hin Hlen Hbeg) |].
  rewrite Eh. cbn [ti_private ti_max_io_len ti_len].
  repeat split. unfold constructed. cbn [zone_size_po2]. exact Hc.
Qed.

Lemma ctr_then_io_hints_witness :
  (0 < bdev_zone_sectors dev12 <= 2 ^ 30)
  /\ (0 <= get_capacity dev12 < 2 ^ 64)
  /\ get_capacity dev12 / bdev_zone_sectors dev12 < 2 ^ 32
  /\ exists dmh ti',
       dm_po2z_ctr ti12 1 true (DevOpened dev12) = (0, ti')
       /\ ti_private ti' = Some dmh
       /\ dm_po2z_io_hints dmh 0 = zone_size_po2 dmh
       /\ ti_max_io_len ti' = dm_po2z_io_hints dmh 0
       /\ ti_len ti' = dm_po2z_io_hints dmh 0 * nr_zones dmh.
Proof.
  assert (H1 : 0 < bdev_zone_sectors dev12 <= 2 ^ 30) by (cbn; lia).
  assert (H2 : 0 <= get_capacity dev12 < 2 ^ 64) by (cbn; lia).
  assert (H3 : get_capacity dev12 / bdev_zone_sectors dev12 < 2 ^ 32)
    by (vm_compute; reflexivity).
  split; [exact H1 |]. split; [exact H2 |]. split; [exact H3 |].
  destruct (ctr_then_io_hints ti12 dev12 0 H1 H2 H3 eq_refl eq_refl)
    as (dmh & ti' & E & Hp & Hh & Hm & Hl & _).
  exists dmh, ti'.
  split; [exact E |]. split; [exact Hp |]. split; [exact Hh |].
  split; [exact Hm | exact Hl].
Defined.

(** ** Zone reports: what an enumeration delivers *)

Lemma last_cons_default {A : Type} (l : list A) (a d : A) :
  last (a :: l) d = last l a.
Proof.
  revert a d. induction l as [| x l IH]; intros a d; [reflexivity |].
  change (last (a :: x :: l) d) with (last (x :: l) d).
  rewrite (IH x d), (IH x a). reflexivity.
Qed.

Lemma last_nth_error {A : Type} (l : list A) (d x : A) (n : nat) :
  List.length l = S n -> nth_error l n = Some x -> last l d = x.
Proof.
  revert d n. induction l as [| a l IH]; intros d n Hl Hn; [discriminate |].
  rewrite last_cons_default. destruct n as [| n].
  - destruct l; [| discriminate]. cbn in Hn. now injection Hn.
  - cbn in Hl, Hn. apply (IH a n); [lia | exact Hn].
Qed.

(** The state an enumeration leaves with a collecting caller: the
    translations in order, and the cursor behind the last of them. *)
Lemma report_loop_state (dmh : dm_po2z_target) (zones : list blk_zone) :
  forall (idx cursor zidx : Z) (acc : list blk_zone),
    exists zidx',
      report_loop dm_po2z_report_zones_cb zones idx
        (mk_dm_report_zones_args dmh cursor acc collect_cb zidx)
      = (idx + Z.of_nat (List.length zones),
         mk_dm_report_zones_args dmh
           (last (map (fun z => u64 (start (translated dmh z)
                                     + len (translated dmh z))) zones)
                 cursor)
           (acc ++ map (translated dmh) zones) collect_cb zidx').
Proof.
  induction zones as [| z rest IH]; intros idx cursor zidx acc.
  - exists zidx. cbn. rewrite app_nil_r, Z.add_0_r. reflexivity.
  - cbn [report_loop]. rewrite report_zones_cb_unfold.
    cbn [tgt orig_cb orig_data zone_idx collect_cb fst snd Z.eqb].
    destruct (IH (idx + 1)
                (u64 (start (translated dmh z) + len (translated dmh z)))
                (u32 (zidx + 1)) (acc ++ [translated dmh z]))
      as (i' & E).
    exists i'. rewrite E. cbn [map List.length].
    rewrite last_cons_default, <- app_assoc. cbn [app].
    f_equal. lia.
Qed.

Section ReportRun.

Variable dmh : dm_po2z_target.
Hypothesis Hok : geometry_ok dmh.
Hypothesis Hdev : device_matches dmh.

(** The zones an enumeration from cursor [c] for [nr] zones reads. *)
Lemma zones_from_cursor (c nr : Z) :
  on_target dmh c -> 0 < nr ->
  zones_from (dev dmh) (po2_zone_no dmh c * zone_size dmh) nr
  = firstn (Z.to_nat nr)
      (skipn (Z.to_nat (c / zone_size_po2 dmh)) (bdev_zones (dev dmh))).
Proof.
  intros Hc Hnr. destruct Hdev as [Hzs Hcap].
  destruct (po2_zone_no_on_target dmh Hok c Hc) as [Hq Hr].
  pose proof (gk_size_pos dmh Hok) as Hp.
  unfold zones_from. rewrite Hq, Hzs.
  destruct (Z.eqb_spec nr 0) as [E | _]; [lia |].
  destruct (Z.leb_spec (get_capacity (dev dmh))
              (c / zone_size_po2 dmh * zone_size dmh)) as [Hle | _]; [nia |].
  cbn [orb]. rewrite Z.div_mul by lia. reflexivity.
Qed.

Lemma report_zones_run (c nr zidx : Z) (acc : list blk_zone) :
  on_target dmh c -> 0 < nr ->
  exists zidx',
    dm_po2z_report_zones dmh
      (mk_dm_report_zones_args dmh c acc collect_cb zidx) nr
    = (let reported :=
         firstn (Z.to_nat nr)
           (skipn (Z.to_nat (c / zone_size_po2 dmh)) (bdev_zones (dev dmh))) in
       (Z.of_nat (List.length reported),
        mk_dm_report_zones_args dmh
          (last (map (fun z => u64 (start (translated dmh z)
                                    + len (translated dmh z))) reported) c)
          (acc ++ map (translated dmh) reported) collect_cb zidx')).
Proof.
  intros Hc Hnr.
  unfold dm_po2z_report_zones, blkdev_report_zones.
  destruct (report_zones_sect_on_target dmh Hok
              (mk_dm_report_zones_args dmh c acc collect_cb zidx) Hc)
    as [Es _].
  cbn [next_sector] in Es. rewrite Es, (zones_from_cursor c nr Hc Hnr).
  destruct (report_loop_state dmh
              (firstn (Z.to_nat nr)
                 (skipn (Z.to_nat (c / zone_size_po2 dmh))
                    (bdev_zones (dev dmh)))) 0 c zidx acc) as (i' & E).
  exists i'. rewrite E. reflexivity.
Qed.

End ReportRun.

(** X14. An enumeration from a cursor on the logical device, for a
    positive number [nr] of zones, with a caller that collects its
    descriptors: the backing device is read from the physical zone whose
    number is the logical zone number of the cursor, [cursor /
    zone_size_po2]; the caller receives the translations of these
    physical descriptors, at most [nr] of them, in their order and after
    what it had collected before, and the return value is their number. *)
Theorem report_zones_from_cursor (dmh : dm_po2z_target) (c nr zidx : Z)
    (acc : list blk_zone) :
  geometry_ok dmh ->
  device_matches dmh ->
  on_target dmh c ->
  0 < nr ->
  let r := dm_po2z_report_zones dmh
             (mk_dm_report_zones_args dmh c acc collect_cb zidx) nr in
  let reported :=
    firstn (Z.to_nat nr)
      (skipn (Z.to_nat (c / zone_size_po2 dmh)) (bdev_zones (dev dmh))) in
  fst r = Z.of_nat (List.length reported)
  /\ orig_data (snd r) = acc ++ map (translated dmh) reported
  /\ (List.length reported <= Z.to_nat nr)%nat.
Proof.
  intros Hok Hdev Hc Hnr r reported. subst r.
  destruct (report_zones_run dmh Hok Hdev c nr zidx acc Hc Hnr) as (i' & E).
  rewrite E. cbn [fst snd orig_data]. fold reported.
  repeat split. subst reported. rewrite length_firstn. lia.
Qed.

Lemma report_zones_from_cursor_witness :
  geometry_ok geo12
  /\ device_matches geo12
  /\ on_target geo12 100
  /\ fst (dm_po2z_report_zones geo12 (args_at geo12 100) 8) = 4
  /\ map start (orig_data (snd (dm_po2z_report_zones geo12
                                  (args_at geo12 100) 8)))
     = [96; 112; 128; 144].
Proof.
  assert (H1 : geometry_ok geo12) by (constructor; cbn; lia).
  assert (H2 : device_matches geo12) by (split; cbn; [reflexivity | lia]).
  assert (H3 : on_target geo12 100) by (unfold on_target, target_len; cbn; lia).
  assert (H4 : 0 < 8) by lia.
  destruct (report_zones_from_cursor geo12 100 8 0 [] H1 H2 H3 H4)
    as (Hf & Hd & _).
  split; [exact H1 |]. split; [exact H2 |]. split; [exact H3 |].
  unfold args_at. rewrite Hf, Hd. split; vm_compute; reflexivity.
Defined.

Section RegularTable.

Variable dmh : dm_po2z_target.
Hypothesis Hok : geometry_ok dmh.
Hypothesis Hreg : zone_table_regular dmh.

(** The [i]-th zone read by an enumeration that starts at zone [z]. *)
Lemma reported_nth (nr z : Z) (i : nat) (pz : blk_zone) :
  0 <= z ->
  nth_error (firstn (Z.to_nat nr)
               (skipn (Z.to_nat z) (bdev_zones (dev dmh)))) i = Some pz ->
  start pz = (z + Z.of_nat i) * zone_size dmh
  /\ 0 <= z + Z.of_nat i < nr_zones dmh.
Proof.
  intros Hz Hn. destruct Hreg as [Hlen Hst].
  rewrite nth_error_firstn in Hn.
  destruct (i <? Z.to_nat nr)%nat; [| discriminate].
  rewrite nth_error_skipn in Hn.
  assert (Hlt : (Z.to_nat z + i < List.length (bdev_zones (dev dmh)))%nat).
  { apply nth_error_Some. rewrite Hn. discriminate. }
  rewrite (Hst _ _ Hn). split; [f_equal; lia | lia].
Qed.

Lemma reported_length (nr z : Z) :
  0 <= z < nr_zones dmh -> 0 < nr ->
  List.length (firstn (Z.to_nat nr)
                 (skipn (Z.to_nat z) (bdev_zones (dev dmh))))
  = Z.to_nat (Z.min nr (nr_zones dmh - z)).
Proof.
  intros Hz Hnr. destruct Hreg as [Hlen _].
  rewrite length_firstn, length_skipn, Hlen. lia.
Qed.

End RegularTable.

(** X15. Enumeration over a regular zone table.  With the zones of the
    backing device laid out one after the other, an enumeration from a
    cursor in logical zone [z] for [nr > 0] zones reports
    [min nr (nr_zones - z)] zones, at least one; the [i]-th descriptor
    delivered starts at logical sector [(z + i) * zone_size_po2] and has
    length [zone_size_po2]; and the cursor is left at the start of the
    first logical zone not reported, so that the next enumeration resumes
    without gap or repetition. *)
Theorem report_zones_resumes (dmh : dm_po2z_target) (c nr zidx : Z)
    (acc : list blk_zone) :
  geometry_ok dmh ->
  device_matches dmh ->
  zone_table_regular dmh ->
  on_target dmh c ->
  0 < nr ->
  let z := c / zone_size_po2 dmh in
  let count := Z.min nr (nr_zones dmh - z) in
  let r := dm_po2z_report_zones dmh
             (mk_dm_report_zones_args dmh c acc collect_cb zidx) nr in
  fst r = count
  /\ 0 < count
  /\ (forall (i : nat) (zi : blk_zone),
         nth_error (orig_data (snd r)) (List.length acc + i) = Some zi ->
         start zi = (z + Z.of_nat i) * zone_size_po2 dmh
         /\ len zi = zone_size_po2 dmh)
  /\ next_sector (snd r) = (z + count) * zone_size_po2 dmh.
Proof.
  intros Hok Hdev Hreg Hc Hnr z count r. subst r.
  destruct (po2_zone_no_on_target dmh Hok c Hc) as [_ Hz]. fold z in Hz.
  destruct (report_zones_run dmh Hok Hdev c nr zidx acc Hc Hnr) as (i' & E).
  rewrite E. cbv zeta. cbn [fst snd orig_data next_sector]. fold z.
  pose proof (reported_length dmh Hreg nr z Hz Hnr) as Hlen. fold count in Hlen.
  set (reported := firstn (Z.to_nat nr)
                     (skipn (Z.to_nat z) (bdev_zones (dev dmh)))) in *.
  assert (Hcount : 0 < count) by (subst count; lia).
  split; [rewrite Hlen; lia |]. split; [exact Hcount |]. split.
  - intros i zi Hn.
    rewrite nth_error_app2 in Hn by lia.
    replace (List.length acc + i - List.length acc)%nat with i in Hn by lia.
    rewrite nth_error_map in Hn.
    destruct (nth_error reported i) as [pz |] eqn:Hp; [| discriminate].
    cbn in Hn. injection Hn as <-.
    destruct (reported_nth dmh Hreg nr z i pz ltac:(lia) Hp) as [Hs Hr].
    destruct (translated_zone_start dmh Hok _ Hr) as [Et _].
    unfold translated. cbn [start len]. rewrite Hs, Et. split; reflexivity.
  - destruct (Z.to_nat count) as [| k] eqn:Hk; [lia |].
    destruct (nth_error reported k) as [pz |] eqn:Hp.
    2: { apply nth_error_None in Hp. lia. }
    destruct (reported_nth dmh Hreg nr z k pz ltac:(lia) Hp) as [Hs Hr].
    destruct (translated_zone_start dmh Hok _ Hr) as [Et En].
    rewrite (last_nth_error _ c
               (u64 (start (translated dmh pz) + len (translated dmh pz))) k).
    + unfold translated. cbn [start len]. rewrite Hs, Et, En. f_equal. lia.
    + rewrite length_map. exact Hlen.
    + rewrite nth_error_map, Hp. reflexivity.
Qed.

Lemma report_zones_resumes_witness :
  geometry_ok geo12
  /\ device_matches geo12
  /\ zone_table_regular geo12
  /\ on_target geo12 100
  /\ fst (dm_po2z_report_zones geo12 (args_at geo12 100) 3)
     = Z.min 3 (nr_zones geo12 - 100 / zone_size_po2 geo12)
  /\ next_sector (snd (dm_po2z_report_zones geo12 (args_at geo12 100) 3))
     = (100 / zone_size_po2 geo12
        + Z.min 3 (nr_zones geo12 - 100 / zone_size_po2 geo12))
       * zone_size_po2 geo12.
Proof.
  assert (H1 : geometry_ok geo12) by (constructor; cbn; lia).
  assert (H2 : device_matches geo12) by (split; cbn; [reflexivity | lia]).
  assert (H3 : zone_table_regular geo12).
  { split; [reflexivity |]. intros j zj Hj.
    do 10 (destruct j as [| j]; [cbn in Hj; injection Hj as <-; reflexivity |]).
    destruct j; discriminate. }
  assert (H4 : on_target geo12 100) by (unfold on_target, target_len; cbn; lia).
  assert (H5 : 0 < 3) by lia.
  destruct (report_zones_resumes geo12 100 3 0 [] H1 H2 H3 H4 H5)
    as (Hf & _ & _ & Hn).
  split; [exact H1 |]. split; [exact H2 |]. split; [exact H3 |].
  split; [exact H4 |]. split; [exact Hf | exact Hn].
Defined.

(** X16. The write pointer in a translated descriptor.  For the descriptor
    of physical zone [j] of the device, whose write pointer lies between
    the start and the end of the zone, the translated descriptor starts at
    [j * zone_size_po2]; a write pointer inside the zone keeps its
    distance from the start, and the write pointer of a full zone, which
    the device puts at the end of the physical zone, comes out at the end
    of the logical zone, [start + len].  The translated write pointer
    never leaves the translated zone. *)
Theorem report_cb_write_pointer (D : Type) (zone : blk_zone) (idx j : Z)
    (args : dm_report_zones_args D) :
  geometry_ok (tgt args) ->
  0 <= j < nr_zones (tgt args) ->
  start zone = j * zone_size (tgt args) ->
  start zone <= wp zone <= start zone + zone_size (tgt args) ->
  let zone' := snd (fst (dm_po2z_report_zones_cb zone idx args)) in
  start zone' = j * zone_size_po2 (tgt args)
  /\ (wp zone < start zone + zone_size (tgt args) ->
      wp zone' = start zone' + (wp zone - start zone))
  /\ (wp zone = start zone + zone_size (tgt args) ->
      wp zone' = start zone' + len zone')
  /\ start zone' <= wp zone' <= start zone' + len zone'.
Proof.
  intros Hok Hj Hs Hw zone'. subst zone'.
  rewrite report_zones_cb_unfold. cbn [fst snd].
  unfold translated. cbn [start wp len].
  set (dmh := tgt args) in *.
  pose proof (gk_size_pos dmh Hok) as Hp.
  pose proof (gk_diff dmh Hok) as Hd. pose proof (gk_cover dmh Hok) as Hc.
  destruct (translated_zone_start dmh Hok j Hj) as [Est _].
  rewrite Hs in *. rewrite Est.
  assert (Hin : wp zone < j * zone_size dmh + zone_size dmh ->
                device_to_target_sect dmh (wp zone)
                = j * zone_size_po2 dmh + (wp zone - j * zone_size dmh)).
  { intros Hlt.
    destruct (device_image dmh Hok (wp zone) ltac:(nia)) as (E & _).
    assert (Hq : wp zone / zone_size dmh = j).
    { replace (wp zone)
        with (j * zone_size dmh + (wp zone - j * zone_size dmh)) by lia.
      rewrite Z.div_add_l by lia. rewrite Z.div_small by lia. lia. }
    pose proof (Z.div_mod (wp zone) (zone_size dmh) ltac:(lia)) as Hdm.
    rewrite Hq in Hdm. rewrite E, Hq. lia. }
  assert (Hfull : wp zone = j * zone_size dmh + zone_size dmh ->
                  device_to_target_sect dmh (wp zone)
                  = j * zone_size_po2 dmh + zone_size_po2 dmh).
  { intros Heq.
    destruct (device_to_target_on_device dmh Hok (wp zone) ltac:(nia))
      as [E _].
    assert (Hq : wp zone / zone_size dmh = j + 1).
    { rewrite Heq.
      replace (j * zone_size dmh + zone_size dmh)
        with ((j + 1) * zone_size dmh) by lia.
      apply Z.div_mul. lia. }
    rewrite E, Hq, Heq, Hd. lia. }
  split; [reflexivity |]. split; [exact Hin |]. split; [exact Hfull |].
  destruct (Z.eq_dec (wp zone) (j * zone_size dmh + zone_size dmh)) as [E | N].
  - rewrite (Hfull E). lia.
  - rewrite (Hin ltac:(lia)). lia.
Qed.

Lemma report_cb_write_pointer_witness :
  let zone := mk_blk_zone 24 12 36 2 14 0 0 12 in
  let args := args_at geo12 0 in
  geometry_ok (tgt args)
  /\ 0 <= 2 < nr_zones (tgt args)
  /\ start zone = 2 * zone_size (tgt args)
  /\ (start zone <= wp zone <= start zone + zone_size (tgt args))
  /\ wp (snd (fst (dm_po2z_report_zones_cb zone 0 args)))
     = start (snd (fst (dm_po2z_report_zones_cb zone 0 args)))
       + len (snd (fst (dm_po2z_report_zones_cb zone 0 args))).
Proof.
  intros zone args.
  assert (H1 : geometry_ok (tgt args)) by (constructor; cbn; lia).
  assert (H2 : 0 <= 2 < nr_zones (tgt args)) by (cbn; lia).
  assert (H3 : start zone = 2 * zone_size (tgt args)) by reflexivity.
  assert (H4 : start zone <= wp zone <= start zone + zone_size (tgt args))
    by (cbn; lia).
  destruct (report_cb_write_pointer (list blk_zone) zone 0 2 args H1 H2 H3 H4)
    as (_ & _ & Hfull & _).
  split; [exact H1 |]. split; [exact H2 |]. split; [exact H3 |].
  split; [exact H4 |]. apply Hfull. reflexivity.
Defined.

(** ** Latency accumulation *)

Lemma u64_s64 (x : Z) : u64 (s64 x) = u64 x.
Proof.
  unfold u64, s64. cbv zeta.
  destruct (x mod 2 ^ 64 <? 2 ^ 63).
  - apply Z.mod_mod. lia.
  - replace (x mod 2 ^ 64 - 2 ^ 64) with (x mod 2 ^ 64 + (-1) * 2 ^ 64) by lia.
    rewrite Z.mod_add by lia. apply Z.mod_mod. lia.
Qed.

Lemma u64_sub_s64 (x y : Z) : u64 (s64 x - y) = u64 (x - y).
Proof.
  unfold u64. rewrite <- (Zminus_mod_idemp_l (s64 x)).
  fold (u64 (s64 x)). rewrite u64_s64. unfold u64.
  apply Zminus_mod_idemp_l.
Qed.

Lemma u64_scale_add (k a c : Z) :
  u64 (u64 (u64 k * u64 a) + u64 c) = u64 (k * a + c).
Proof.
  unfold u64.
  rewrite Zplus_mod_idemp_l, Zplus_mod_idemp_r.
  rewrite <- (Zplus_mod_idemp_l (k mod 2 ^ 64 * (a mod 2 ^ 64))).
  rewrite <- Zmult_mod. apply Zplus_mod_idemp_l.
Qed.

(** The delay computed is the difference of the two readings in
    nanoseconds, in 64-bit unsigned arithmetic, in both branches. *)
Lemma calclock_delay (t0 t1 : timespec64) (total_time total_count : Z) :
  fst (fst (calclock t0 t1 total_time total_count))
  = u64 (nanoseconds t1 - nanoseconds t0).
Proof.
  unfold calclock, nanoseconds. cbn [fst].
  destruct (tv_nsec t0 <=? tv_nsec t1); cbv zeta.
  - rewrite !u64_s64, u64_scale_add. f_equal. lia.
  - rewrite !u64_s64, !u64_sub_s64, u64_scale_add. f_equal. lia.
Qed.

Lemma calclock_totals (t0 t1 : timespec64) (total_time total_count : Z) :
  calclock t0 t1 total_time total_count
  = (u64 (nanoseconds t1 - nanoseconds t0),
     u64 (total_time + u64 (nanoseconds t1 - nanoseconds t0)),
     u64 (total_count + 1)).
Proof.
  pose proof (calclock_delay t0 t1 total_time total_count) as Hd.
  unfold calclock in *. cbn [fst] in Hd. cbv zeta in *.
  rewrite Hd. reflexivity.
Qed.

(** X17. For two clock readings with the second not before the first and
    less than 2^64 nanoseconds after it, [calclock] returns exactly the
    elapsed nanoseconds, whether or not the nanosecond field of the second
    reading is below that of the first (the borrow of a second is
    exact); it adds this delay to the total time and one to the total
    count, both in 64-bit unsigned arithmetic. *)
Theorem calclock_elapsed (t0 t1 : timespec64) (total_time total_count : Z) :
  nanoseconds t0 <= nanoseconds t1 ->
  nanoseconds t1 - nanoseconds t0 < 2 ^ 64 ->
  calclock t0 t1 total_time total_count
  = (nanoseconds t1 - nanoseconds t0,
     u64 (total_time + (nanoseconds t1 - nanoseconds t0)),
     u64 (total_count + 1)).
Proof.
  intros Hle Hlt.
  pose proof (calclock_delay t0 t1 total_time total_count) as Hd.
  rewrite u64_small in Hd by lia.
  unfold calclock in *. cbn [fst] in Hd. cbv zeta in *.
  rewrite Hd. reflexivity.
Qed.

Lemma calclock_elapsed_witness :
  let t0 := mk_timespec64 5 900000000 in
  let t1 := mk_timespec64 7 100000000 in
  nanoseconds t0 <= nanoseconds t1
  /\ nanoseconds t1 - nanoseconds t0 < 2 ^ 64
  /\ calclock t0 t1 10 3
     = (nanoseconds t1 - nanoseconds t0,
        u64 (10 + (nanoseconds t1 - nanoseconds t0)), u64 (3 + 1)).
Proof.
  intros t0 t1.
  assert (H1 : nanoseconds t0 <= nanoseconds t1) by (vm_compute; discriminate).
  assert (H2 : nanoseconds t1 - nanoseconds t0 < 2 ^ 64)
    by (vm_compute; reflexivity).
  exact (conj H1 (conj H2 (calclock_elapsed t0 t1 10 3 H1 H2))).
Defined.

Example calclock_borrow :
  calclock (mk_timespec64 5 900000000) (mk_timespec64 7 100000000) 10 3
  = (1200000000, 1200000010, 4).
Proof. vm_compute. reflexivity. Qed.

(** X18. Measurements add up.  Accumulating the interval from [t0] to [t1]
    and then the interval from [t1] to [t2] leaves the same total time as
    accumulating the interval from [t0] to [t2] at once, for any three
    readings; the count has grown by two. *)
Theorem calclock_adds_up (t0 t1 t2 : timespec64) (total_time total_count : Z) :
  let '(_, time1, count1) := calclock t0 t1 total_time total_count in
  let '(_, time2, count2) := calclock t1 t2 time1 count1 in
  let '(_, time_direct, _) := calclock t0 t2 total_time total_count in
  time2 = time_direct /\ count2 = u64 (total_count + 2).
Proof.
  rewrite (calclock_totals t0 t1 total_time total_count).
  rewrite (calclock_totals t1 t2).
  rewrite (calclock_totals t0 t2 total_time total_count).
  generalize (nanoseconds t0) (nanoseconds t1) (nanoseconds t2).
  intros n0 n1 n2. unfold u64. split.
  - rewrite Zplus_mod_idemp_r, Zplus_mod_idemp_r, Zplus_mod_idemp_l.
    rewrite Zplus_mod_idemp_r. f_equal. lia.
  - rewrite Zplus_mod_idemp_l. f_equal. lia.
Qed.
